(** * Structured extraction orchestrator: a shallow embedding

    This development embeds the class [StructuredResponseTool] of
    [worker/src/ai-toolbox/llm/structuredResponseTool.js] and states its
    contract as theorems.

    JavaScript values are modelled by their JSON-like structure; an object is
    the finite map of its own enumerable properties (names inherited from
    [Object.prototype] are not part of the model, and the order in which
    [for ... in] visits keys is not represented: every loop of the tool
    writes only the key it is visiting).  A string is the sequence of its
    characters, which is what [length] and [substring] count.  Numbers are
    carried as integers; the tool only ever creates the number [0] and
    otherwise moves numbers around.  A call into Zod or into the [env.AI] binding returns or throws;
    a method of the tool may in addition fail to terminate.  The binding is
    an arbitrary deterministic function of the calls it has received so far,
    so the state threaded through the asynchronous methods is the list of
    backend calls made. *)

From stdpp Require Import gmap strings list fin_maps pretty.
From Stdlib Require Import ZArith.

#[local] Set Warnings "-register-all".
#[local] Set Warnings "-abstract-large-number".

(** ** JavaScript values and exceptions *)

Module Js.

Inductive Value : Type :=
  | VUndefined
  | VNull
  | VBool (b : bool)
  | VNumber (n : Z)
  | VString (s : string)
  | VArray (items : list Value)
  | VObject (fields : gmap string Value).

(** A thrown value, seen through the three reads the tool performs on it:
    [error.errors] (already rendered by [JSON.stringify] when truthy, as a
    [ZodError] has it), [error.message] and [String(error)]. *)
Record Exn : Type := MkExn {
  exn_errors : option string;
  exn_message : string;
  exn_text : string
}.

(** [new Error(message)] *)
Definition Error (message : string) : Exn :=
  {| exn_errors := None;
     exn_message := message;
     exn_text := if String.eqb message "" then "Error" else "Error: " +:+ message |}.

(** Reading a property of [undefined] or [null]. *)
Definition TypeError (prop : string) : Exn :=
  let message := "Cannot read properties of undefined (reading '" +:+ prop +:+ "')" in
  {| exn_errors := None;
     exn_message := message;
     exn_text := "TypeError: " +:+ message |}.

(** [error?.errors ? JSON.stringify(error.errors) : error?.message || String(error)] *)
Definition errorMessage (error : Exn) : string :=
  match exn_errors error with
  | Some rendered => rendered
  | None => if String.eqb (exn_message error) "" then exn_text error
            else exn_message error
  end.

(** How a call that terminates ends. *)
Inductive Result (A : Type) : Type :=
  | Returns (a : A)
  | Throws (e : Exn).
Arguments Returns {A} a.
Arguments Throws {A} e.

(** Truthiness, as [!v], [a && b] and [a || b] test it. *)
Definition truthy (v : Value) : bool :=
  match v with
  | VUndefined | VNull => false
  | VBool b => b
  | VNumber n => negb (Z.eqb n 0)
  | VString s => negb (String.eqb s "")
  | VArray _ | VObject _ => true
  end.

Definition nullish (v : Value) : bool :=
  match v with
  | VUndefined | VNull => true
  | _ => false
  end.

Fixpoint chars (s : string) : list Value :=
  match s with
  | EmptyString => []
  | String c rest => VString (String c EmptyString) :: chars rest
  end.

Definition indexed (items : list Value) : gmap string Value :=
  list_to_map (imap (λ (i : nat) (x : Value), (pretty i, x)) items).

(** The own enumerable properties of a value: what [{ ...v }] copies and
    what [for (const key in v)] visits. *)
Definition ownProps (v : Value) : gmap string Value :=
  match v with
  | VObject fields => fields
  | VArray items => indexed items
  | VString s => indexed (chars s)
  | _ => ∅
  end.

(** [v?.key] *)
Definition getOpt (v : Value) (key : string) : Value :=
  default VUndefined (ownProps v !! key).

(** [v.key] *)
Definition getProp (v : Value) (key : string) : Result Value :=
  if nullish v then Throws (TypeError key) else Returns (getOpt v key).

(** [for (const key in o) body] over a loop state [B]. *)
Definition forIn {A B : Type} (o : gmap string A) (body : B → string → A → B)
    (init : B) : B :=
  foldl (λ acc kv, body acc kv.1 kv.2) init (map_to_list o).

(** Template-literal rendering of a possibly missing string property. *)
Definition render (s : option string) : string := default "undefined" s.

End Js.
Export Js.

(** ** Zod schemas, as the tool uses them *)

(** The tool reads three things off a schema: [schema.shape] (for each
    declared field the tag [_def?.typeName]; the property is undefined on
    schemas that are not object schemas), [schema.parse], and the result of
    [zodToJsonSchema(schema, ...)]. *)
Record ZodSchema : Type := MkSchema {
  shape : option (gmap string (option string));
  parse : Value → Result Value;
  toJsonSchema : Result Value
}.


(** ** fillMissingFields *)

(** The [switch (zodType._def?.typeName)] of the loop body. *)
Definition defaultFor (typeName : option string) : Value :=
  match typeName with
  | Some t =>
      if String.eqb t "ZodArray" then VArray []
      else if String.eqb t "ZodObject" then VObject ∅
      else if String.eqb t "ZodString" then VString ""
      else if String.eqb t "ZodNumber" then VNumber 0
      else if String.eqb t "ZodBoolean" then VBool false
      else VNull
  | None => VNull
  end.

(** [!(key in fullResponse) || fullResponse[key] === undefined], on what
    looking [key] up in [fullResponse] finds. *)
Definition absent (found : option Value) : bool :=
  match found with
  | None | Some VUndefined => true
  | Some _ => false
  end.

Definition fillField (fullResponse : gmap string Value) (key : string)
    (zodType : option string) : gmap string Value :=
  if absent (fullResponse !! key)
  then <[key := defaultFor zodType]> fullResponse
  else fullResponse.

Definition fillDefaults (schema : ZodSchema) (aiResponse : Value) : gmap string Value :=
  let fullResponse := ownProps aiResponse in
  match shape schema with
  | Some properties => forIn properties fillField fullResponse
  | None => fullResponse
  end.

Definition fillMissingFields (schema : ZodSchema) (aiResponse : Value) : Result Value :=
  parse schema (VObject (fillDefaults schema aiResponse)).

(** ** The effect monad of the asynchronous methods *)

Definition Call : Type := string * Value.
Definition History : Type := list Call.

(** [env.AI.run(model, inputs)]: whatever the binding answers, given the
    calls it has already served. *)
Definition Backend : Type := History → string → Value → Result Value.

(** A method run from a history of backend calls ends with a result and
    the extended history, or does not terminate ([None]). *)
Definition M (A : Type) : Type := History → option (Result A * History).

#[global] Instance Result_ret : MRet Result := λ A a, Returns a.
#[global] Instance Result_bind : MBind Result := λ A B f m,
  match m with
  | Returns a => f a
  | Throws e => Throws e
  end.

#[global] Instance M_ret : MRet M := λ A a h, Some (Returns a, h).
#[global] Instance M_bind : MBind M := λ A B f m h,
  match m h with
  | Some (Returns a, h') => f a h'
  | Some (Throws e, h') => Some (Throws e, h')
  | None => None
  end.

Definition throw {A : Type} (e : Exn) : M A := λ h, Some (Throws e, h).

Definition lift {A : Type} (r : Result A) : M A := λ h, Some (r, h).

(** A loop that may not terminate. *)
Definition liftLoop {A : Type} (o : option A) : M A := λ h,
  match o with
  | Some a => Some (Returns a, h)
  | None => None
  end.

(** [try { body } catch (error) { handler }] *)
Definition tryCatch {A : Type} (body : M A) (handler : Exn → M A) : M A := λ h,
  match body h with
  | Some (Throws e, h') => handler e h'
  | other => other
  end.

Definition tryCatchPure {A : Type} (body : Result A) (handler : Exn → Result A)
    : Result A :=
  match body with
  | Throws e => handler e
  | other => other
  end.

Definition run (AI : Backend) (model : string) (inputs : Value) : M Value := λ h,
  Some (AI h model inputs, (h ++ [(model, inputs)])%list).

(** The models a history has invoked, oldest first. *)
Definition invoked (h : History) : list string := h.*1.

(** ** The result record of the extraction paths

    A field the object literal does not mention is [None]. *)
Record ExtractionResult : Type := MkResult {
  success : bool;
  modelUsed : string;
  structuredResult : Value;
  error : option string;
  isChunked : option bool
}.

Definition newline : string := String (Ascii.ascii_of_nat 10) EmptyString.

Definition systemContent : string :=
  "You are an AI assistant specialized in extracting structured data from text into a specified JSON format.".

Definition promptFor (textPayload : string) : string :=
  "You are an AI assistant tasked with analyzing the following text and extracting information according to a specific JSON schema."
  +:+ newline +:+ "--- TEXT START ---" +:+ newline +:+ textPayload +:+ newline
  +:+ "--- TEXT END ---" +:+ newline
  +:+ "Your response MUST be a single, valid JSON object that strictly adheres to the provided JSON schema. Do not include any explanatory text, markdown formatting, or anything else outside the JSON object itself. Respond with the JSON for the text provided above.".

Definition message (role content : string) : Value :=
  VObject {[ "role" := VString role; "content" := VString content ]}.

Definition extractionInputs (prompt : string) (jsonSchema : Value) : Value :=
  VObject {[
    "messages" := VArray [message "system" systemContent; message "user" prompt];
    "response_format" :=
      VObject {[ "type" := VString "json_schema"; "json_schema" := jsonSchema ]}
  ]}.

(** [if (jsonSchema && typeof jsonSchema === "object" && "$schema" in jsonSchema)
      delete jsonSchema.$schema] *)
Definition stripMeta (jsonSchema : Value) : Value :=
  match jsonSchema with
  | VObject fields => VObject (delete "$schema" fields)
  | other => other
  end.

(** The negation of the guard before the backend call: truthy, of type
    object, with a [properties] key and a [type] key equal to ["object"].
    An array is of type object but has index keys only. *)
Definition usableWireSchema (jsonSchema : Value) : bool :=
  match jsonSchema with
  | VObject fields =>
      bool_decide (is_Some (fields !! "properties")) &&
      match fields !! "type" with
      | Some (VString t) => String.eqb t "object"
      | _ => false
      end
  | _ => false
  end.

Section Tool.

(** The instance: its [env.AI] binding and its [maxSmallContextChars]
    field (initialised to 80000 by the class). *)
Context (AI : Backend) (maxSmallContextChars : nat).

(** The identifiers exported by [./models.js]. *)
Context (Hermes2Pro Llama3_3 Llama4Scout MistralSmall3_1 : string).

Definition executeModel (modelName textPayload : string) (schema : ZodSchema)
    (isChunk : bool) : M ExtractionResult :=
  tryCatch
    (let prompt := promptFor textPayload in
     jsonSchema ← lift (toJsonSchema schema);
     let jsonSchema := stripMeta jsonSchema in
     if negb (usableWireSchema jsonSchema)
     then throw (Error "Failed to generate a valid JSON schema for the request.")
     else
       response ← run AI modelName (extractionInputs prompt jsonSchema);
       let resultObject := getOpt response "response" in
       if nullish resultObject
       then throw (Error ("Model " +:+ modelName +:+ " returned an empty or invalid response."))
       else
         validatedResponse ← lift (fillMissingFields schema resultObject);
         mret {| success := true;
                 modelUsed := modelName;
                 structuredResult := validatedResponse;
                 error := None;
                 isChunked := Some isChunk |})
    (λ error,
       mret {| success := false;
               modelUsed := modelName;
               structuredResult := VNull;
               error := Some ("Model " +:+ modelName +:+ " failed: " +:+ errorMessage error);
               isChunked := Some isChunk |}).

(** *** chunkAndMerge *)

(** [for (let i = 0; i < fullText.length; i += chunkSize)
      textChunks.push(fullText.substring(i, i + chunkSize))].
    With no iterations left to spend the loop has not finished. *)
Fixpoint splitLoop (fuel : nat) (fullText : string) (chunkSize i : nat)
    (textChunks : list string) : option (list string) :=
  if decide (i < String.length fullText) then
    match fuel with
    | O => None
    | S fuel' =>
        splitLoop fuel' fullText chunkSize (i + chunkSize)
          (textChunks ++ [String.substring i chunkSize fullText])%list
    end
  else Some textChunks.

(** Each iteration that advances consumes at least one character, so
    [fullText.length] iterations are enough whenever the loop ends. *)
Definition splitText (fullText : string) (chunkSize : nat) : option (list string) :=
  splitLoop (String.length fullText) fullText chunkSize 0 [].

(** The body of [for (const key in currentResult)]. *)
Definition mergeField (mergedResults : gmap string Value) (key : string)
    (newValue : Value) : gmap string Value :=
  let existingValue := mergedResults !! key in
  match newValue with
  | VArray new =>
      <[key := VArray match existingValue with
                      | Some (VArray existing) => (existing ++ new)%list
                      | _ => new
                      end]> mergedResults
  | VObject new =>
      <[key := VObject match existingValue with
                       | Some (VObject existing) => new ∪ existing
                       | _ => new
                       end]> mergedResults
  | VUndefined | VNull =>
      match existingValue with
      | None => <[key := newValue]> mergedResults
      | Some _ => mergedResults
      end
  | _ => <[key := newValue]> mergedResults
  end.

Definition mergeChunk (mergedResults : gmap string Value) (currentResult : Value)
    : gmap string Value :=
  forIn (ownProps currentResult) mergeField mergedResults.

Record MergeState : Type := MkMergeState {
  mergedResults : gmap string Value;
  firstSuccessfulModel : option string
}.

(** Truthiness of a string-or-null variable. *)
Definition named (model : option string) : bool :=
  match model with
  | Some name => negb (String.eqb name "")
  | None => false
  end.

(** [firstSuccessfulModel || modelName] *)
Definition orModel (first : option string) (modelName : string) : string :=
  if named first then default modelName first else modelName.

(** The loop over [textChunks] from index [i] on; [inl] is the early
    [return] of the failure record. *)
Fixpoint chunkLoop (modelName : string) (schema : ZodSchema) (total i : nat)
    (pending : list string) (st : MergeState) : M (ExtractionResult + MergeState) :=
  match pending with
  | [] => mret (inr st)
  | chunk :: rest =>
      result ← executeModel modelName chunk schema true;
      if negb (success result) || negb (truthy (structuredResult result))
      then
        mret (inl {| success := false;
                     modelUsed := modelName;
                     structuredResult := VNull;
                     error := Some ("Chunking failure on chunk " +:+ pretty (i + 1)
                                    +:+ "/" +:+ pretty total +:+ ": "
                                    +:+ render (error result));
                     isChunked := Some true |})
      else
        let first :=
          if named (firstSuccessfulModel st) then firstSuccessfulModel st
          else Some (modelUsed result) in
        chunkLoop modelName schema total (i + 1) rest
          {| mergedResults := mergeChunk (mergedResults st) (structuredResult result);
             firstSuccessfulModel := first |}
  end.

Definition chunkAndMerge (modelName fullText : string) (schema : ZodSchema)
    : M ExtractionResult :=
  let chunkSize := maxSmallContextChars in
  textChunks ← liftLoop (splitText fullText chunkSize);
  looped ← chunkLoop modelName schema (length textChunks) 0 textChunks
             {| mergedResults := ∅; firstSuccessfulModel := None |};
  match looped with
  | inl failure => mret failure
  | inr st =>
      lift (tryCatchPure
        (validatedFinal ← fillMissingFields schema (VObject (mergedResults st));
         mret {| success := true;
                 modelUsed := orModel (firstSuccessfulModel st) modelName;
                 structuredResult := validatedFinal;
                 error := None;
                 isChunked := Some true |})
        (λ error,
           mret {| success := false;
                   modelUsed := orModel (firstSuccessfulModel st) modelName;
                   structuredResult := VNull;
                   error := Some ("Final validation after merging failed: "
                                  +:+ errorMessage error);
                   isChunked := Some true |}))
  end.

(** *** analyzeText *)

Definition analyzeText (schema : ZodSchema) (textPayload : string)
    : M ExtractionResult :=
  if String.eqb textPayload ""
  then throw (Error "Input textPayload cannot be empty for analyzeText.")
  else if decide (maxSmallContextChars < String.length textPayload) then
    result ← executeModel Llama4Scout textPayload schema false;
    if success result then mret result else
    result ← executeModel MistralSmall3_1 textPayload schema false;
    if success result then mret result else
    chunkAndMerge Llama4Scout textPayload schema
  else
    result ← executeModel Hermes2Pro textPayload schema false;
    if success result then mret result else
    result ← executeModel MistralSmall3_1 textPayload schema false;
    if success result then mret result else
    result ← executeModel Llama4Scout textPayload schema false;
    if success result then mret result else
    result ← executeModel Llama3_3 textPayload schema false;
    if success result then mret result else
    mret {| success := false;
            modelUsed := Llama3_3;
            structuredResult := VNull;
            error := Some ("All models (" +:+ Hermes2Pro +:+ ", " +:+ MistralSmall3_1
                           +:+ ", " +:+ Llama4Scout +:+ ", " +:+ Llama3_3
                           +:+ ") failed to generate a valid structured response. Last error: "
                           +:+ render (error result));
            isChunked := None |}.

Definition analyzeTextWithModel (schema : ZodSchema) (textPayload modelName : string)
    : M ExtractionResult :=
  if String.eqb textPayload ""
  then throw (Error "Input textPayload cannot be empty for analyzeTextWithModel.")
  else executeModel modelName textPayload schema false.

(** *** pollBatchAnalysisStatus *)

(** The record both failure branches of the per-item callback build:
    [{ ...item, success: false, error: errorMessage,
       result: { response: { error: errorMessage } } }]. *)
Definition failedItem (item errorMessage : Value) : Value :=
  VObject (<["result" := VObject {[ "response" := VObject {[ "error" := errorMessage ]} ]}]>
          (<["error" := errorMessage]>
          (<["success" := VBool false]> (ownProps item)))).

Definition processItem (schema : ZodSchema) (item : Value) : Result Value :=
  itemSuccess ← getProp item "success";
  let payload := getOpt (getOpt item "result") "response" in
  if truthy itemSuccess && truthy payload then
    tryCatchPure
      (filled ← fillMissingFields schema payload;
       mret (VObject (<["result" := VObject {[ "response" := filled ]}]> (ownProps item))))
      (λ validationError,
         let errorMessage :=
           "Schema validation failed: " +:+ errorMessage validationError in
         mret (failedItem item (VString errorMessage)))
  else
    let itemError := getOpt item "error" in
    let errorMessage :=
      if truthy itemError then itemError
      else VString "AI processing failed or result structure invalid." in
    mret (failedItem item errorMessage).

(** [Promise.all(items.map(async (item) => ...))]: the callbacks never
    await, so they run in order and the first rejection is the one
    reported. *)
Fixpoint processAll (schema : ZodSchema) (items : list Value) : Result (list Value) :=
  match items with
  | [] => mret []
  | item :: rest =>
      processed ← processItem schema item;
      others ← processAll schema rest;
      mret (processed :: others)
  end.

Definition completed (status : Value) : bool :=
  match status with
  | VString s => String.eqb s "completed"
  | _ => false
  end.

Definition pollBatchAnalysisStatus (modelName requestId : string) (schema : ZodSchema)
    : M Value :=
  if String.eqb requestId ""
  then throw (Error "Request ID is required to poll batch status.")
  else
    response ← run AI modelName (VObject {[ "request_id" := VString requestId ]});
    status ← lift (getProp response "status");
    if negb (completed status) then mret response else
    match getOpt response "responses" with
    | VArray items =>
        processedResponses ← lift (processAll schema items);
        mret (VObject (<["status" := VString "completed"]>
                      (<["responses" := VArray processedResponses]> (ownProps response))))
    | _ =>
        throw (Error ("Completed batch analysis response for " +:+ requestId
                      +:+ " has invalid structure."))
    end.

End Tool.

(** ** fillMissingFields over a store

    The same method with its two objects as cells of a store, so that what
    it writes to is visible: [aiResponse] is a reference the caller keeps,
    [fullResponse] a fresh cell. *)

Module Store.

Abbreviation Heap := (gmap nat (gmap string Value)).

Definition cell (σ : Heap) (l : nat) : gmap string Value := default ∅ (σ !! l).

(** [const fullResponse = { ...aiResponse }] *)
Definition copyOf (aiResponse : nat) (σ : Heap) : nat * Heap :=
  let fullResponse := fresh (dom σ) in
  (fullResponse, <[fullResponse := cell σ aiResponse]> σ).

(** [fullResponse[key] = v] *)
Definition assign (l : nat) (key : string) (v : Value) (σ : Heap) : Heap :=
  alter (insert key v) l σ.

Definition fillFieldAt (fullResponse : nat) (σ : Heap) (key : string)
    (zodType : option string) : Heap :=
  if absent (cell σ fullResponse !! key)
  then assign fullResponse key (defaultFor zodType) σ
  else σ.

Definition fillMissingFieldsAt (schema : ZodSchema) (aiResponse : nat) (σ : Heap)
    : Result Value * Heap :=
  let '(fullResponse, σ1) := copyOf aiResponse σ in
  let σ2 :=
    match shape schema with
    | Some properties => forIn properties (fillFieldAt fullResponse) σ1
    | None => σ1
    end in
  (parse schema (VObject (cell σ2 fullResponse)), σ2).

End Store.

(** ** Schemas and backends used as concrete instances *)

Module Examples.

Definition zodIssues (rendered : string) : Exn :=
  {| exn_errors := Some rendered; exn_message := rendered; exn_text := "ZodError: " +:+ rendered |}.

Definition isString (v : Value) : bool :=
  match v with VString _ => true | _ => false end.

(** [z.object({ name: z.string(), tags: z.array(z.string()) })] *)
Definition nameTagsSchema : ZodSchema :=
  {| shape := Some {[ "name" := Some "ZodString"; "tags" := Some "ZodArray" ]};
     parse := λ v,
       match v with
       | VObject fields =>
           match fields !! "name", fields !! "tags" with
           | Some (VString name), Some (VArray tags) =>
               if forallb isString tags
               then Returns (VObject {[ "name" := VString name; "tags" := VArray tags ]})
               else Throws (zodIssues "[invalid_type at tags]")
           | Some (VString _), _ => Throws (zodIssues "[invalid_type at tags]")
           | _, _ => Throws (zodIssues "[invalid_type at name]")
           end
       | _ => Throws (zodIssues "[invalid_type at root]")
       end;
     toJsonSchema := Returns (VObject {[
       "$schema" := VString "http://json-schema.org/draft-07/schema#";
       "type" := VString "object";
       "properties" := VObject {[
          "name" := VObject {[ "type" := VString "string" ]};
          "tags" := VObject {[ "type" := VString "array";
                               "items" := VObject {[ "type" := VString "string" ]} ]} ]};
       "required" := VArray [VString "name"; VString "tags"];
       "additionalProperties" := VBool false ]}) |}.

(** [aiResponseSchema = z.union([plannerCommandSchema, clarifyCommandSchema])]
    of the natural-language caller: a union has no [shape], and its JSON
    schema is an [anyOf] without top-level [type] or [properties] (the two
    option schemas are abbreviated here). *)
Definition aiResponseSchema : ZodSchema :=
  {| shape := None;
     parse := λ v,
       match v with
       | VObject fields =>
           match fields !! "command", fields !! "reasoning" with
           | Some (VString command), Some (VString reasoning) =>
               match fields !! "params", fields !! "question" with
               | None, _ | Some VUndefined, _ =>
                   Returns (VObject {[ "command" := VString command;
                                       "params" := VObject ∅;
                                       "reasoning" := VString reasoning ]})
               | Some (VObject params), _ =>
                   Returns (VObject {[ "command" := VString command;
                                       "params" := VObject params;
                                       "reasoning" := VString reasoning ]})
               | Some _, Some (VString question) =>
                   if String.eqb command "CLARIFY"
                   then Returns (VObject {[ "command" := VString command;
                                            "question" := VString question;
                                            "reasoning" := VString reasoning ]})
                   else Throws (zodIssues "[invalid_union]")
               | Some _, _ => Throws (zodIssues "[invalid_union]")
               end
           | _, _ => Throws (zodIssues "[invalid_union]")
           end
       | _ => Throws (zodIssues "[invalid_union]")
       end;
     toJsonSchema := Returns (VObject {[
       "$schema" := VString "http://json-schema.org/draft-07/schema#";
       "anyOf" := VArray [VObject {[ "type" := VString "object" ]};
                          VObject {[ "type" := VString "object" ]}] ]}) |}.

(** A binding that answers every call with [null]. *)
Definition silentBackend : Backend := λ _ _ _, Returns VNull.

(** A binding on which one model answers with the given payload and every
    other model is unavailable. *)
Definition onlyModel (name : string) (payload : Value) : Backend := λ _ model _,
  if String.eqb model name
  then Returns (VObject {[ "response" := payload ]})
  else Throws (Error "model unavailable").

(** A binding that answers with the given payload, except that its call
    number [n] (counted from 0) is refused. *)
Definition failingOn (n : nat) (payload : Value) : Backend := λ h _ _,
  if Nat.eqb (length h) n
  then Throws (Error "rate limited")
  else Returns (VObject {[ "response" := payload ]}).

(** [z.object({}).transform(() => null)]: an effects schema has no [shape],
    its wire schema is that of the object schema inside, and its [parse]
    returns what the transform returns. *)
Definition nullingSchema : ZodSchema :=
  {| shape := None;
     parse := λ v,
       match v with
       | VObject _ => Returns VNull
       | _ => Throws (zodIssues "[invalid_type at root]")
       end;
     toJsonSchema := Returns (VObject {[
       "$schema" := VString "http://json-schema.org/draft-07/schema#";
       "type" := VString "object";
       "properties" := VObject ∅;
       "additionalProperties" := VBool false ]}) |}.

(** A binding that answers every call with the same value. *)
Definition constantBackend (response : Value) : Backend := λ _ _ _, Returns response.

(** A completed batch of three items: the second carries a [name] that is
    not a string. *)
Definition batchItem (payload : Value) : Value :=
  VObject {[ "success" := VBool true; "result" := VObject {[ "response" := payload ]} ]}.

Definition batchOfThree : Value :=
  VObject {[
    "status" := VString "completed";
    "responses" := VArray [
      batchItem (VObject {[ "name" := VString "hall" ]});
      batchItem (VObject {[ "name" := VNumber 3 ]});
      batchItem (VObject {[ "name" := VString "attic"; "tags" := VArray [VString "roof"] ]})
    ] ]}.

(** A binding that refuses its first [n] calls and answers the later ones
    with the given payload. *)
Definition refusingFirst (n : nat) (payload : Value) : Backend := λ h _ _,
  if Nat.ltb (length h) n
  then Throws (Error "rate limited")
  else Returns (VObject {[ "response" := payload ]}).

End Examples.

(** ** Vocabulary of the statements *)

(** The backend calls one [executeModel] attempt makes: a single call when
    the wire schema passes the guard, none otherwise. *)
Definition attemptCalls (modelName textPayload : string) (schema : ZodSchema)
    : History :=
  match toJsonSchema schema with
  | Returns jsonSchema =>
      if usableWireSchema (stripMeta jsonSchema)
      then [(modelName, extractionInputs (promptFor textPayload) (stripMeta jsonSchema))]
      else []
  | Throws _ => []
  end.

(** The record a method returned, when it returned one. *)
Definition returned {A : Type} (o : option (Result A * History)) : option A :=
  match o with
  | Some (Returns a, _) => Some a
  | _ => None
  end.

(** The history a method left behind, when it terminated. *)
Definition historyAfter {A : Type} (o : option (Result A * History)) : option History :=
  match o with
  | Some (_, h) => Some h
  | None => None
  end.

(** A chunk result the loop of [chunkAndMerge] goes on from: the negation of
    [!result.success || !result.structuredResult]. *)
Definition usable (r : ExtractionResult) : bool :=
  success r && truthy (structuredResult r).

(** The records the attempts on successive chunks return, each attempt run
    from the history the previous one left. *)
Fixpoint attempts (AI : Backend) (modelName : string) (schema : ZodSchema)
    (chunks : list string) (h : History) : list ExtractionResult :=
  match chunks with
  | [] => []
  | chunk :: rest =>
      match executeModel AI modelName chunk schema true h with
      | Some (Returns r, h') => r :: attempts AI modelName schema rest h'
      | _ => []
      end
  end.

(** The backend calls the attempts on a list of chunks make, in order. *)
Definition chunkCalls (modelName : string) (schema : ZodSchema) (chunks : list string)
    : History :=
  flat_map (λ chunk, attemptCalls modelName chunk schema) chunks.

(** The fold of the merge over chunk results, in the order given. *)
Definition mergeAll (results : list Value) : gmap string Value :=
  foldl mergeChunk ∅ results.

(** What [chunkAndMerge] returns once the loop has folded every chunk
    result into [merged]: the outcome of the final validation. *)
Definition validatedMerge (modelName : string) (schema : ZodSchema)
    (merged : gmap string Value) : ExtractionResult :=
  match fillMissingFields schema (VObject merged) with
  | Returns validatedFinal =>
      {| success := true;
         modelUsed := modelName;
         structuredResult := validatedFinal;
         error := None;
         isChunked := Some true |}
  | Throws error =>
      {| success := false;
         modelUsed := modelName;
         structuredResult := VNull;
         error := Some ("Final validation after merging failed: " +:+ errorMessage error);
         isChunked := Some true |}
  end.

(** The shape every returned record has: a success carries no [error] and
    the value [schema.parse] returned; a failure carries [null] and an
    error message. *)
Definition resultShape (schema : ZodSchema) (r : ExtractionResult) : Prop :=
  if success r
  then error r = None ∧ ∃ v, parse schema v = Returns (structuredResult r)
  else structuredResult r = VNull ∧ is_Some (error r).

(** The shape of the specification's data model: [isChunked] always a
    boolean, [structuredResult] non-null exactly on success. *)
Definition uniformShape (r : ExtractionResult) : Prop :=
  is_Some (isChunked r) ∧ (structuredResult r ≠ VNull ↔ success r = true).


(** ** The rest of the tool: submitting a batch *)

(** [String(v)], as a template literal renders a value. *)
Fixpoint toStr (v : Value) : string :=
  match v with
  | VUndefined => "undefined"
  | VNull => "null"
  | VBool b => if b then "true" else "false"
  | VNumber n => pretty n
  | VString s => s
  | VArray items =>
      String.concat ","
        (map (λ item, match item with
                      | VUndefined | VNull => ""
                      | _ => toStr item
                      end) items)
  | VObject _ => "[object Object]"
  end.

(** One element of [requests]: the messages and response format of a
    single extraction, with [external_reference] spread in when references
    were given. *)
Definition batchRequest (jsonSchema : Value) (externalReferences : option (list string))
    (index : nat) (text : string) : Value :=
  let request : gmap string Value :=
    {[ "messages" := VArray [message "system" systemContent;
                             message "user" (promptFor text)];
       "response_format" :=
         VObject {[ "type" := VString "json_schema"; "json_schema" := jsonSchema ]} ]} in
  match externalReferences with
  | Some references =>
      VObject (<["external_reference" :=
                  match references !! index with
                  | Some reference => VString reference
                  | None => VUndefined
                  end]> request)
  | None => VObject request
  end.

(** The arguments of [env.AI.run(modelName, { requests }, { queueRequest: true })]:
    a call that passes options is recorded with the pair of its inputs and
    its options. *)
Definition queuedInputs (requests : list Value) : Value :=
  VArray [VObject {[ "requests" := VArray requests ]};
          VObject {[ "queueRequest" := VBool true ]}].

(** [status === "queued"] *)
Definition queued (status : Value) : bool :=
  match status with
  | VString s => String.eqb s "queued"
  | _ => false
  end.

Definition requestBatchAnalysis (AI : Backend) (modelName : string)
    (textPayloads : list string) (schema : ZodSchema)
    (externalReferences : option (list string)) : M Value :=
  if bool_decide (length textPayloads = 0)
  then throw (Error "At least one text payload is required for batch analysis.")
  else if existsb (λ text, String.eqb text "") textPayloads
  then throw (Error "All text payloads in the batch must be non-empty.")
  else if match externalReferences with
          | Some references =>
              negb (bool_decide (length references = length textPayloads))
          | None => false
          end
  then throw (Error "Length of externalReferences must match the length of textPayloads.")
  else
    jsonSchema ← lift (toJsonSchema schema);
    let jsonSchema := stripMeta jsonSchema in
    if negb (usableWireSchema jsonSchema)
    then throw (Error "Failed to generate a valid JSON schema for the batch request.")
    else
      let requests := imap (batchRequest jsonSchema externalReferences) textPayloads in
      response ← run AI modelName (queuedInputs requests);
      if negb (queued (getOpt response "status"))
         || negb (truthy (getOpt response "request_id"))
      then throw (Error ("Failed to queue batch analysis request. Received status: "
                         +:+ toStr (getOpt response "status")))
      else mret response.

(** ** The agent helper: [agent-helper.js] *)

Module Text.

Definition code (c : Ascii.ascii) : nat := Ascii.nat_of_ascii c.

(** [\d] *)
Definition isDigit (c : Ascii.ascii) : bool :=
  Nat.leb 48 (code c) && Nat.leb (code c) 57.

(** [\s], among the characters below 256: tab, line feed, vertical tab,
    form feed, carriage return, space and no-break space. *)
Definition isSpace (c : Ascii.ascii) : bool :=
  (Nat.leb 9 (code c) && Nat.leb (code c) 13)
  || Nat.eqb (code c) 32 || Nat.eqb (code c) 160.

(** [toLowerCase] on one character below 256: A-Z and the accented capitals
    (all of 192..222 but the multiplication sign) move up by 32. *)
Definition lowerChar (c : Ascii.ascii) : Ascii.ascii :=
  let n := code c in
  if (Nat.leb 65 n && Nat.leb n 90)
     || (Nat.leb 192 n && Nat.leb n 222 && negb (Nat.eqb n 215))
  then Ascii.ascii_of_nat (n + 32)
  else c.

Fixpoint toLowerCase (s : string) : string :=
  match s with
  | EmptyString => EmptyString
  | String c rest => String (lowerChar c) (toLowerCase rest)
  end.

(** [haystack.includes(needle)] *)
Fixpoint includes (haystack needle : string) : bool :=
  String.prefix needle haystack ||
  match haystack with
  | EmptyString => false
  | String _ rest => includes rest needle
  end.

(** The longest run of digits at the head of the text, and what follows. *)
Fixpoint spanDigits (s : string) : string * string :=
  match s with
  | EmptyString => (EmptyString, EmptyString)
  | String c rest =>
      if isDigit c
      then let '(digits, after) := spanDigits rest in (String c digits, after)
      else (EmptyString, s)
  end.

Fixpoint skipSpaces (s : string) : string :=
  match s with
  | EmptyString => EmptyString
  | String c rest => if isSpace c then skipSpaces rest else s
  end.

(** A match of [/(\d+)\s*,\s*(\d+)/] that starts at the head of the text.
    Every quantifier is greedy and what must follow a run never belongs to
    the run, so giving a character back never helps. *)
Definition coordAt (s : string) : option (string * string) :=
  let '(x, afterX) := spanDigits s in
  if String.eqb x "" then None
  else
    match skipSpaces afterX with
    | String c rest =>
        if Ascii.eqb c (Ascii.ascii_of_nat 44) then
          let '(y, _) := spanDigits (skipSpaces rest) in
          if String.eqb y "" then None else Some (x, y)
        else None
    | EmptyString => None
    end.

(** [s.match(/(\d+)\s*,\s*(\d+)/)]: the match with the leftmost start, as
    its two groups. *)
Fixpoint coordMatch (s : string) : option (string * string) :=
  match coordAt s with
  | Some groups => Some groups
  | None =>
      match s with
      | EmptyString => None
      | String _ rest => coordMatch rest
      end
  end.

End Text.

Definition quote : string := String (Ascii.ascii_of_nat 34) EmptyString.

(** [Object.entries(furnitureTypes)], in the order the literal lists them. *)
Definition furnitureTypes : list (string * string) :=
  [("sofa", "sofa"); ("couch", "sofa"); ("chair", "chair"); ("seat", "chair");
   ("table", "table"); ("desk", "desk"); ("bed", "bed"); ("bookcase", "bookcase");
   ("bookshelf", "bookcase"); ("wardrobe", "wardrobe"); ("closet", "wardrobe");
   ("kitchen", "kitchen"); ("fridge", "fridge"); ("refrigerator", "fridge");
   ("sink", "sink"); ("tv", "tv"); ("television", "tv")].

Section AgentHelper.

(** [parseInt] on a run of decimal digits, [JSON.stringify(v)] and
    [JSON.stringify(v, null, 2)]. *)
Context (parseInt : string → Z).
Context (JSON_stringify JSON_stringify_indented : Value → string).

Definition fallbackParsing (prompt : string) : Value :=
  let lowerPrompt := Text.toLowerCase prompt in
  match find (λ entry, Text.includes lowerPrompt entry.1) furnitureTypes with
  | Some (keyword, itemType) =>
      let position :=
        match Text.coordMatch lowerPrompt with
        | Some (x, y) =>
            VObject {[ "x" := VNumber (parseInt x); "y" := VNumber (parseInt y) ]}
        | None => VNull
        end in
      VObject {[ "command" := VString "ADD_ITEM";
                 "params" := VObject {[ "itemType" := VString itemType;
                                        "position" := position ]};
                 "reasoning" := VString ("[Fallback] Detected request to add " +:+ itemType) ]}
  | None =>
      if Text.includes lowerPrompt "wall" || Text.includes lowerPrompt "draw" then
        VObject {[ "command" := VString "ADD_WALL";
                   "params" := VObject ∅;
                   "reasoning" := VString "[Fallback] Detected request to add wall" ]}
      else if Text.includes lowerPrompt "3d"
              || Text.includes lowerPrompt "three dimensional" then
        VObject {[ "command" := VString "MODE_3D";
                   "params" := VObject ∅;
                   "reasoning" := VString "[Fallback] Switching to 3D view" ]}
      else if Text.includes lowerPrompt "2d" then
        VObject {[ "command" := VString "MODE_2D";
                   "params" := VObject ∅;
                   "reasoning" := VString "[Fallback] Switching to 2D view" ]}
      else if Text.includes lowerPrompt "load" || Text.includes lowerPrompt "open" then
        VObject {[ "command" := VString "CLARIFY";
                   "question" := VString "Which plan would you like to load? Please provide the plan ID.";
                   "reasoning" := VString "[Fallback] Need plan ID to load" ]}
      else
        VObject {[ "command" := VString "CLARIFY";
                   "question" := VString "I'm not sure what you want to do. Could you please rephrase? You can ask me to add furniture, draw walls, or switch views.";
                   "reasoning" := VString "[Fallback] Unable to parse the request" ]}
  end.

Definition domainContext : string :=
  "You are an AI assistant that translates natural language requests into structured JSON commands for a 2D/3D floor planning application (react-planner)."
  +:+ newline +:+ newline
  +:+ "The available commands are:" +:+ newline
  +:+ "- ADD_ITEM: Add furniture or objects. Requires 'itemType' param (e.g., sofa, chair, table, desk, bed, bookcase, wardrobe). Can optionally take 'position: {x, y}'."
  +:+ newline
  +:+ "- ADD_WALL: Draw walls." +:+ newline
  +:+ "- MODE_2D: Switch to 2D view." +:+ newline
  +:+ "- MODE_3D: Switch to 3D view." +:+ newline
  +:+ "- LOAD_PROJECT: Load a saved plan." +:+ newline +:+ newline
  +:+ "Analyze the user's request below and generate the appropriate JSON command."
  +:+ newline
  +:+ "If the request is unclear, you MUST use the " +:+ quote +:+ "CLARIFY" +:+ quote
  +:+ " command and ask a specific question.".

Definition userRequest (prompt : string) (currentState : Value) : string :=
  "User request: " +:+ quote +:+ prompt +:+ quote +:+ newline +:+ newline
  +:+ (if truthy currentState
       then "Current plan state summary: " +:+ JSON_stringify_indented currentState
       else "")
  +:+ newline +:+ newline
  +:+ "Please translate this request into a single, valid JSON command adhering to the schema.".

Definition fullTextPayload (prompt : string) (currentState : Value) : string :=
  domainContext +:+ newline +:+ newline +:+ "---" +:+ newline +:+ newline
  +:+ userRequest prompt currentState.

(** The identifiers exported by [./models.js], and what Zod makes of the
    declaration [aiResponseSchema]. *)
Context (Hermes2Pro Llama3_3 Llama4Scout MistralSmall3_1 : string).
Context (aiResponseSchema : ZodSchema).

(** [env.AI] is [None] when the binding is missing; the constructor of the
    tool then throws, outside the [try] of the caller. *)
Definition parsePromptWithAI (env_AI : option Backend) (prompt : string)
    (currentState : Value) : M Value :=
  match env_AI with
  | None =>
      throw (Error "Cloudflare AI binding (env.AI) is required for StructuredResponseTool.")
  | Some AI =>
      let fullTextPayload := fullTextPayload prompt currentState in
      tryCatch
        (response ← analyzeText AI 80000 Hermes2Pro Llama3_3 Llama4Scout MistralSmall3_1
                      aiResponseSchema fullTextPayload;
         if success response && truthy (structuredResult response)
         then mret (structuredResult response)
         else mret (fallbackParsing prompt))
        (λ error, mret (fallbackParsing prompt))
  end.

(** Reading a property of [null] or [undefined], with the message of the
    engine of the Workers runtime. *)
Definition cannotRead (v : Value) (prop : string) : Exn :=
  let message :=
    "Cannot read properties of " +:+ toStr v +:+ " (reading '" +:+ prop +:+ "')" in
  {| exn_errors := None; exn_message := message; exn_text := "TypeError: " +:+ message |}.

(** [sessionStub.fetch('http://session/command', ...)] followed by
    [response.json()]: the stub answers with the parsed body or one of the
    two throws. *)
Definition postCommand (sessionStub : Backend) (command params : Value) : M Value :=
  run sessionStub "http://session/command"
    (VString (JSON_stringify (VObject {[ "command" := command; "params" := params ]}))).

(** The loop of [executeCommandSequence] over the commands left, with the
    results pushed so far. *)
Fixpoint commandLoop (sessionStub : Backend) (commands : list Value)
    (results : list Value) : M (list Value) :=
  match commands with
  | [] => mret results
  | entry :: rest =>
      if nullish entry then throw (cannotRead entry "command")
      else
        let command := getOpt entry "command" in
        let params := getOpt entry "params" in
        step ← tryCatch (A := Value * bool)
          (result ← postCommand sessionStub command params;
           if nullish result then throw (cannotRead result "success")
           else
             mret (VObject {[ "command" := command;
                              "params" := params;
                              "success" := getOpt result "success";
                              "result" := result ]},
                   truthy (getOpt result "success")))
          (λ error,
             mret (VObject {[ "command" := command;
                              "params" := params;
                              "success" := VBool false;
                              "error" := VString (exn_message error) ]},
                   false));
        let '(pushed, continue) := (step : Value * bool) in
        if continue
        then commandLoop sessionStub rest (results ++ [pushed])
        else mret (results ++ [pushed])
  end.

Definition executeCommandSequence (sessionStub : Backend) (commands : list Value)
    : M (list Value) :=
  commandLoop sessionStub commands [].

End AgentHelper.

(** ** The gateway: [verifyAuth] of [index.js] *)

Section Auth.

(** [crypto.subtle.digest('SHA-256', new TextEncoder().encode(s))] read as
    a [Uint8Array]: the bytes of the digest, or a throw. *)
Context (digest : string → Result (list Z)).

(** [for (i = 0; i < tokenHash.length; i++) mismatch |= tokenHash[i] ^ keyHash[i]],
    an index beyond [keyHash] reading [undefined], which [^] takes as 0. *)
Fixpoint mismatchLoop (tokenHash keyHash : list Z) (mismatch : Z) : Z :=
  match tokenHash with
  | [] => mismatch
  | t :: tokenRest =>
      let k := match keyHash with k :: _ => k | [] => 0%Z end in
      mismatchLoop tokenRest (tail keyHash) (Z.lor mismatch (Z.lxor t k))
  end.

(** [apiKey] is [env.WORKER_API_KEY] and [authHeader] is
    [request.headers.get('Authorization')], [None] for a value that is not
    there. *)
Definition verifyAuth (apiKey authHeader : option string) : bool :=
  match apiKey with
  | None => true
  | Some apiKey =>
      if String.eqb apiKey "" then true
      else
        match authHeader with
        | None => false
        | Some authHeader =>
            if String.eqb authHeader "" || negb (String.prefix "Bearer " authHeader)
            then false
            else
              let token := String.substring 7 (String.length authHeader - 7) authHeader in
              match digest token, digest apiKey with
              | Returns tokenHash, Returns keyHash =>
                  if negb (Nat.eqb (length tokenHash) (length keyHash)) then false
                  else Z.eqb (mismatchLoop tokenHash keyHash 0) 0
              | _, _ => false
              end
        end
  end.

End Auth.

(** ** Instances for the agent helper and the gateway *)

Module Instances.

Fixpoint decimalFrom (acc : Z) (digits : string) : Z :=
  match digits with
  | EmptyString => acc
  | String c rest => decimalFrom (10 * acc + Z.of_nat (Text.code c - 48)) rest
  end.

(** [parseInt] on a run of digits short enough to be read exactly. *)
Definition decimal (digits : string) : Z := decimalFrom 0 digits.

(** [JSON.stringify] on the objects the examples post: a string [command]
    and no [params]. *)
Definition stringifyCommand (v : Value) : string :=
  "{" +:+ quote +:+ "command" +:+ quote +:+ ":" +:+ quote
  +:+ toStr (getOpt v "command") +:+ quote +:+ "}".

(** A session on which every command succeeds but the one posted as call
    number [n], which the container reports as failed. *)
Definition sessionFailingOn (n : nat) : Backend := λ h _ _,
  Returns (VObject {[ "success" := VBool (negb (Nat.eqb (length h) n)) ]}).

(** A digest that is the list of the character codes (not a hash, but a
    function of the text, which is all [verifyAuth] relies on). *)
Fixpoint codes (s : string) : list Z :=
  match s with
  | EmptyString => []
  | String c rest => Z.of_nat (Text.code c) :: codes rest
  end.

Definition plainDigest (s : string) : Result (list Z) := Returns (codes s).

End Instances.

(** Statement vocabulary for [executeCommandSequence]: whether a pushed
    result reports success, and the call that posts a command entry. *)
Definition succeeded (entry : Value) : bool := truthy (getOpt entry "success").

Definition postOf (JSON_stringify : Value → string) (entry : Value) : Call :=
  ("http://session/command",
   VString (JSON_stringify (VObject {[ "command" := getOpt entry "command";
                                       "params" := getOpt entry "params" ]}))).

(** Statement vocabulary for the agent helper: every character of a text
    satisfies a test. *)
Fixpoint allChars (test : Ascii.ascii → bool) (s : string) : bool :=
  match s with
  | EmptyString => true
  | String c rest => test c && allChars test rest
  end.

(** * Properties *)

(** ** Loops over the keys of an object *)

Section ForIn.

Context {A : Type}.
Context (body : gmap string Value → string → A → gmap string Value).
Context (f : string → A → option Value → option Value).
Hypothesis body_keywise : ∀ m k a k',
  body m k a !! k' = if decide (k = k') then f k a (m !! k) else m !! k'.

Lemma foldl_keywise (l : list (string * A)) :
  NoDup l.*1 → ∀ (init : gmap string Value) (k : string),
  foldl (λ acc kv, body acc kv.1 kv.2) init l !! k =
    match (list_to_map l : gmap string A) !! k with
    | Some a => f k a (init !! k)
    | None => init !! k
    end.
Proof.
  induction l as [|[k0 a0] l IH]; intros Hnd init k; simpl.
  - by rewrite lookup_empty.
  - apply NoDup_cons in Hnd as [Hk0 Hnd].
    rewrite (IH Hnd), body_keywise, lookup_insert.
    destruct (decide (k0 = k)) as [->|Hne].
    + apply (not_elem_of_list_to_map_1 (M:=gmap string)) in Hk0.
      simpl in Hk0. by rewrite Hk0.
    + done.
Qed.

Lemma forIn_keywise (o : gmap string A) (init : gmap string Value) (k : string) :
  forIn o body init !! k =
    match o !! k with
    | Some a => f k a (init !! k)
    | None => init !! k
    end.
Proof.
  unfold forIn. rewrite foldl_keywise by apply NoDup_fst_map_to_list.
  by rewrite list_to_map_to_list.
Qed.

End ForIn.

Lemma forIn_invariant {A B : Type} (P : B → Prop) (body : B → string → A → B)
    (o : gmap string A) (init : B) :
  P init → (∀ b k a, P b → P (body b k a)) → P (forIn o body init).
Proof.
  intros Hinit Hstep. unfold forIn.
  generalize (map_to_list o) as l. intros l. revert init Hinit.
  induction l as [|kv l IH]; intros init Hinit; simpl; auto.
Qed.

(** ** fillMissingFields *)






(** *** The store version writes to its own copy only *)

Lemma fillFieldAt_cell (fr : nat) (σ : Store.Heap) (k : string) (a : option string) :
  is_Some (σ !! fr) →
  Store.cell (Store.fillFieldAt fr σ k a) fr = fillField (Store.cell σ fr) k a ∧
  is_Some (Store.fillFieldAt fr σ k a !! fr).
Proof.
  intros [o Ho]. unfold Store.fillFieldAt, fillField, Store.cell, Store.assign.
  rewrite Ho. cbn [default from_option id]. destruct (absent (o !! k)); cbv beta iota.
  - rewrite lookup_alter, decide_True, Ho by done.
    cbn [fmap option_fmap option_map from_option id]. eauto.
  - rewrite Ho. eauto.
Qed.

Lemma fillFieldAt_others (fr : nat) (σ : Store.Heap) (k : string) (a : option string)
    (l : nat) :
  l ≠ fr → Store.fillFieldAt fr σ k a !! l = σ !! l.
Proof.
  intros Hne. unfold Store.fillFieldAt, Store.assign.
  destruct (absent _); [|done]. by rewrite lookup_alter, decide_False.
Qed.

Lemma foldl_fillFieldAt_cell (fr : nat) (l : list (string * option string)) :
  ∀ σ : Store.Heap, is_Some (σ !! fr) →
  Store.cell (foldl (λ acc kv, Store.fillFieldAt fr acc kv.1 kv.2) σ l) fr =
    foldl (λ acc kv, fillField acc kv.1 kv.2) (Store.cell σ fr) l.
Proof.
  induction l as [|[k a] l IH]; intros σ Hσ; simpl; [done|].
  destruct (fillFieldAt_cell fr σ k a Hσ) as [Hcell Hsome].
  by rewrite (IH _ Hsome), Hcell.
Qed.

(** Run on a store, the method answers what the value-level method answers
    on the contents of the candidate's cell, and every cell that existed
    before the call, the candidate's among them, is left as it was. *)
Lemma fillMissingFieldsAt_sound (schema : ZodSchema) (aiResponse : nat)
    (σ : Store.Heap) :
  (Store.fillMissingFieldsAt schema aiResponse σ).1 =
    fillMissingFields schema (VObject (Store.cell σ aiResponse)) ∧
  ∀ l, is_Some (σ !! l) → (Store.fillMissingFieldsAt schema aiResponse σ).2 !! l = σ !! l.
Proof.
  unfold Store.fillMissingFieldsAt, Store.copyOf. simpl.
  set (fr := fresh (dom σ)).
  assert (Hfresh : σ !! fr = None).
  { apply not_elem_of_dom. apply is_fresh. }
  split.
  - unfold fillMissingFields, fillDefaults. simpl.
    destruct (shape schema) as [properties|].
    + unfold forIn. rewrite foldl_fillFieldAt_cell.
      * unfold Store.cell at 1. by rewrite lookup_insert_eq.
      * rewrite lookup_insert_eq. eauto.
    + unfold Store.cell at 1. by rewrite lookup_insert_eq.
  - intros l [o Ho].
    assert (Hne : l ≠ fr) by (intros ->; congruence).
    destruct (shape schema) as [properties|].
    + apply (forIn_invariant (λ σ' : Store.Heap, σ' !! l = σ !! l)).
      * by rewrite lookup_insert_ne.
      * intros b k a Hb. by rewrite fillFieldAt_others.
    + by rewrite lookup_insert_ne.
Qed.

(** C10 — When [schema.shape] is undefined, as for the union schema of the
    natural-language caller, fillMissingFields synthesizes nothing: the
    object handed to [schema.parse] is the shallow copy of the candidate, the
    call returns exactly that parse, and the candidate's own cell in the
    store is the same after the call as before. *)
Theorem fillMissingFields_without_shape (schema : ZodSchema) :
  shape schema = None →
  (∀ candidate : Value,
     fillDefaults schema candidate = ownProps candidate ∧
     fillMissingFields schema candidate = parse schema (VObject (ownProps candidate))) ∧
  (∀ (σ : Store.Heap) (aiResponse : nat) (fields : gmap string Value),
     σ !! aiResponse = Some fields →
     (Store.fillMissingFieldsAt schema aiResponse σ).1 = parse schema (VObject fields) ∧
     (Store.fillMissingFieldsAt schema aiResponse σ).2 !! aiResponse = Some fields).
Proof.
  intros Hshape. split.
  - intros candidate. unfold fillMissingFields, fillDefaults. by rewrite Hshape.
  - intros σ aiResponse fields Hcell.
    destruct (fillMissingFieldsAt_sound schema aiResponse σ) as [Hres Hkeep].
    split.
    + rewrite Hres. unfold fillMissingFields, fillDefaults, Store.cell.
      by rewrite Hshape, Hcell.
    + rewrite Hkeep; eauto.
Qed.

Lemma fillMissingFields_without_shape_witness :
  shape Examples.aiResponseSchema = None ∧
  fillMissingFields Examples.aiResponseSchema
      (VObject {[ "command" := VString "MODE_3D"; "reasoning" := VString "view" ]})
    = parse Examples.aiResponseSchema
      (VObject {[ "command" := VString "MODE_3D"; "reasoning" := VString "view" ]}) ∧
  (Store.fillMissingFieldsAt Examples.aiResponseSchema 0
      {[ 0 := {[ "command" := VString "MODE_3D" ]} ]}).2 !! 0
    = Some {[ "command" := VString "MODE_3D" ]}.
Proof.
  pose proof (fillMissingFields_without_shape Examples.aiResponseSchema eq_refl)
    as [Hvalue Hstore].
  split; [reflexivity|]. split.
  - apply Hvalue.
  - apply (Hstore {[ 0 := {[ "command" := VString "MODE_3D" ]} ]} 0).
    reflexivity.
Defined.

(** ** executeModel *)

Ltac unfold_M :=
  unfold tryCatch, tryCatchPure, lift, liftLoop, run, throw;
  unfold mbind, mret, M_bind, M_ret, Result_bind, Result_ret.

Section ExecuteModel.

Context (AI : Backend).
Context (modelName textPayload : string) (schema : ZodSchema) (isChunk : bool).
Context (h : History).

Let failure (message : string) : ExtractionResult :=
  {| success := false;
     modelUsed := modelName;
     structuredResult := VNull;
     error := Some ("Model " +:+ modelName +:+ " failed: " +:+ message);
     isChunked := Some isChunk |}.

Lemma executeModel_schema_throws (e : Exn) :
  toJsonSchema schema = Throws e →
  executeModel AI modelName textPayload schema isChunk h =
    Some (Returns (failure (errorMessage e)), h).
Proof. intros Hjs. unfold executeModel. unfold_M. by rewrite Hjs. Qed.

Lemma executeModel_unusable (jsonSchema : Value) :
  toJsonSchema schema = Returns jsonSchema →
  usableWireSchema (stripMeta jsonSchema) = false →
  executeModel AI modelName textPayload schema isChunk h =
    Some (Returns (failure "Failed to generate a valid JSON schema for the request."), h).
Proof. intros Hjs Hbad. unfold executeModel. unfold_M. by rewrite Hjs, Hbad. Qed.

Section Called.

Context (jsonSchema : Value).
Hypothesis Hjs : toJsonSchema schema = Returns jsonSchema.
Hypothesis Husable : usableWireSchema (stripMeta jsonSchema) = true.

Let inputs : Value := extractionInputs (promptFor textPayload) (stripMeta jsonSchema).
Let h' : History := (h ++ [(modelName, inputs)])%list.

Lemma executeModel_backend_throws (e : Exn) :
  AI h modelName inputs = Throws e →
  executeModel AI modelName textPayload schema isChunk h =
    Some (Returns (failure (errorMessage e)), h').
Proof.
  intros Hrun. unfold executeModel. unfold_M.
  rewrite Hjs, Husable. simpl. fold inputs. by rewrite Hrun.
Qed.

Lemma executeModel_empty_payload (response : Value) :
  AI h modelName inputs = Returns response →
  nullish (getOpt response "response") = true →
  executeModel AI modelName textPayload schema isChunk h =
    Some (Returns (failure ("Model " +:+ modelName
                            +:+ " returned an empty or invalid response.")), h').
Proof.
  intros Hrun Hnull. unfold executeModel. unfold_M.
  rewrite Hjs, Husable. simpl. fold inputs. rewrite Hrun, Hnull.
  unfold failure, errorMessage. simpl.
  by destruct modelName.
Qed.

Lemma executeModel_repair_fails (response : Value) (e : Exn) :
  AI h modelName inputs = Returns response →
  nullish (getOpt response "response") = false →
  fillMissingFields schema (getOpt response "response") = Throws e →
  executeModel AI modelName textPayload schema isChunk h =
    Some (Returns (failure (errorMessage e)), h').
Proof.
  intros Hrun Hnull Hfill. unfold executeModel. unfold_M.
  rewrite Hjs, Husable. simpl. fold inputs. by rewrite Hrun, Hnull, Hfill.
Qed.

Lemma executeModel_succeeds (response validated : Value) :
  AI h modelName inputs = Returns response →
  nullish (getOpt response "response") = false →
  fillMissingFields schema (getOpt response "response") = Returns validated →
  executeModel AI modelName textPayload schema isChunk h =
    Some (Returns {| success := true;
                     modelUsed := modelName;
                     structuredResult := validated;
                     error := None;
                     isChunked := Some isChunk |}, h').
Proof.
  intros Hrun Hnull Hfill. unfold executeModel. unfold_M.
  rewrite Hjs, Husable. simpl. fold inputs. by rewrite Hrun, Hnull, Hfill.
Qed.

End Called.

(** One attempt always ends by returning a record, after the calls
    [attemptCalls] lists; the record is a success carrying what
    [schema.parse] returned, or a failure carrying [null] and a message. *)
Lemma executeModel_returns :
  ∃ r : ExtractionResult,
    executeModel AI modelName textPayload schema isChunk h =
      Some (Returns r, (h ++ attemptCalls modelName textPayload schema)%list) ∧
    modelUsed r = modelName ∧
    isChunked r = Some isChunk ∧
    ((success r = false ∧ structuredResult r = VNull ∧
      ∃ message, error r = Some ("Model " +:+ modelName +:+ " failed: " +:+ message)) ∨
     (success r = true ∧ error r = None ∧
      ∃ candidate, parse schema (VObject (fillDefaults schema candidate))
                     = Returns (structuredResult r))).
Proof.
  unfold attemptCalls.
  destruct (toJsonSchema schema) as [jsonSchema|e] eqn:Hjs.
  - destruct (usableWireSchema (stripMeta jsonSchema)) eqn:Husable.
    + destruct (AI h modelName
                  (extractionInputs (promptFor textPayload) (stripMeta jsonSchema)))
        as [response|e] eqn:Hrun.
      * destruct (nullish (getOpt response "response")) eqn:Hnull.
        -- eexists. split; [by eapply executeModel_empty_payload|].
           simpl. repeat split. left. eauto.
        -- destruct (fillMissingFields schema (getOpt response "response"))
             as [validated|e] eqn:Hfill.
           ++ eexists. split; [by eapply executeModel_succeeds|].
              simpl. repeat split. right. repeat split. eauto.
           ++ eexists. split; [by eapply executeModel_repair_fails|].
              simpl. repeat split. left. eauto.
      * eexists. split; [by eapply executeModel_backend_throws|].
        simpl. repeat split. left. eauto.
    + eexists. rewrite app_nil_r. split; [by eapply executeModel_unusable|].
      simpl. repeat split. left. eauto.
  - eexists. rewrite app_nil_r. split; [by eapply executeModel_schema_throws|].
    simpl. repeat split. left. eauto.
Qed.

End ExecuteModel.

(** C2 (as the code has it) — executeModel never throws.  Whatever goes
    wrong inside it is caught and returned as a [success: false] record:
    a backend that throws, an empty or null payload, a repair that fails
    validation, and also the configuration failures, a [zodToJsonSchema]
    that throws or a wire schema without [properties] or whose [type] is
    not ["object"].  The two configuration failures are detected before the
    backend is called: the history of calls is unchanged. *)
Theorem executeModel_returns_every_failure (AI : Backend) (modelName textPayload : string)
    (schema : ZodSchema) (isChunk : bool) (h : History) :
  let failure message :=
    {| success := false;
       modelUsed := modelName;
       structuredResult := VNull;
       error := Some ("Model " +:+ modelName +:+ " failed: " +:+ message);
       isChunked := Some isChunk |} in
  let attempt := executeModel AI modelName textPayload schema isChunk h in
  (∃ r h', attempt = Some (Returns r, h')) ∧
  (∀ e, toJsonSchema schema = Throws e →
        attempt = Some (Returns (failure (errorMessage e)), h)) ∧
  (∀ jsonSchema,
     toJsonSchema schema = Returns jsonSchema →
     usableWireSchema (stripMeta jsonSchema) = false →
     attempt = Some (Returns (failure
                 "Failed to generate a valid JSON schema for the request."), h)) ∧
  (∀ jsonSchema,
     toJsonSchema schema = Returns jsonSchema →
     usableWireSchema (stripMeta jsonSchema) = true →
     let inputs := extractionInputs (promptFor textPayload) (stripMeta jsonSchema) in
     let h' := (h ++ [(modelName, inputs)])%list in
     (∀ e, AI h modelName inputs = Throws e →
           attempt = Some (Returns (failure (errorMessage e)), h')) ∧
     (∀ response,
        AI h modelName inputs = Returns response →
        nullish (getOpt response "response") = true →
        attempt = Some (Returns (failure ("Model " +:+ modelName
                      +:+ " returned an empty or invalid response.")), h')) ∧
     (∀ response e,
        AI h modelName inputs = Returns response →
        nullish (getOpt response "response") = false →
        fillMissingFields schema (getOpt response "response") = Throws e →
        attempt = Some (Returns (failure (errorMessage e)), h'))).
Proof.
  intros failure attempt. subst attempt. repeat split.
  - destruct (executeModel_returns AI modelName textPayload schema isChunk h)
      as (r & Hr & _). eauto.
  - apply executeModel_schema_throws.
  - apply executeModel_unusable.
  - by apply executeModel_backend_throws.
  - by apply executeModel_empty_payload.
  - by apply executeModel_repair_fails.
Qed.

Lemma executeModel_returns_every_failure_witness :
  executeModel Examples.silentBackend "hermes-2-pro" "Add a sofa"
      Examples.aiResponseSchema false []
    = Some (Returns {| success := false;
                       modelUsed := "hermes-2-pro";
                       structuredResult := VNull;
                       error := Some "Model hermes-2-pro failed: Failed to generate a valid JSON schema for the request.";
                       isChunked := Some false |}, []) ∧
  executeModel Examples.silentBackend "hermes-2-pro" "Add a sofa"
      Examples.nameTagsSchema false []
    = Some (Returns {| success := false;
                       modelUsed := "hermes-2-pro";
                       structuredResult := VNull;
                       error := Some "Model hermes-2-pro failed: Model hermes-2-pro returned an empty or invalid response.";
                       isChunked := Some false |},
            attemptCalls "hermes-2-pro" "Add a sofa" Examples.nameTagsSchema).
Proof.
  split.
  - destruct (executeModel_returns_every_failure Examples.silentBackend "hermes-2-pro"
                "Add a sofa" Examples.aiResponseSchema false [])
      as (_ & _ & Hconfig & _).
    eapply Hconfig; reflexivity.
  - destruct (executeModel_returns_every_failure Examples.silentBackend "hermes-2-pro"
                "Add a sofa" Examples.nameTagsSchema false [])
      as (_ & _ & _ & Hruntime).
    destruct (Hruntime _ eq_refl eq_refl) as (_ & Hempty & _).
    eapply Hempty; reflexivity.
Defined.

(** C2, the part the code does not have: with the union schema of the
    natural-language caller, whose wire schema has neither [type] nor
    [properties], the call does not throw; it returns a failure record. *)
Lemma executeModel_unusable_schema_not_thrown :
  (∃ jsonSchema,
     toJsonSchema Examples.aiResponseSchema = Returns jsonSchema ∧
     usableWireSchema (stripMeta jsonSchema) = false) ∧
  ¬ ∃ e h', executeModel Examples.silentBackend "hermes-2-pro" "Add a sofa"
              Examples.aiResponseSchema false [] = Some (Throws e, h').
Proof.
  split.
  - eexists. split; reflexivity.
  - intros (e & h' & Hthrown).
    pose proof (executeModel_unusable Examples.silentBackend "hermes-2-pro"
                  "Add a sofa" Examples.aiResponseSchema false [] _ eq_refl eq_refl)
      as Hreturned.
    congruence.
Qed.

(** ** Splitting the text into chunks *)

Lemma substring_length (s : string) : ∀ i m,
  String.length (String.substring i m s) = Nat.min m (String.length s - i).
Proof.
  induction s as [|c s IH]; intros [|i] [|m]; simpl; try reflexivity.
  - by rewrite IH, Nat.sub_0_r.
  - apply IH.
  - apply IH.
Qed.

Lemma substring_split (s : string) : ∀ i a b,
  String.substring i (a + b) s =
    String.substring i a s +:+ String.substring (i + a) b s.
Proof.
  induction s as [|c s IH]; intros i a b.
  - destruct i, a, b; reflexivity.
  - destruct i as [|i].
    + destruct a as [|a]; simpl.
      * destruct b; reflexivity.
      * rewrite (IH 0). reflexivity.
    + simpl. apply IH.
Qed.

Lemma substring_all (s : string) : String.substring 0 (String.length s) s = s.
Proof. induction s as [|c s IH]; simpl; [done|by rewrite IH]. Qed.

Lemma append_empty_r (s : string) : s +:+ "" = s.
Proof.
  induction s as [|c s IH]; [done|].
  change (String c (s +:+ "") = String c s). by rewrite IH.
Qed.

Lemma substring_empty (s : string) : ∀ i, String.substring i 0 s = "".
Proof. induction s as [|c s IH]; intros [|i]; simpl; auto. Qed.

Lemma substring_beyond (s : string) : ∀ i m,
  (String.length s ≤ i)%nat → String.substring i m s = "".
Proof.
  induction s as [|c s IH]; intros [|i] m Hle; simpl in *; try lia.
  - by destruct m.
  - done.
  - apply IH. lia.
Qed.

(** Number of slices of width [chunkSize] needed to cover [n] characters. *)
Lemma ceiling_step (n chunkSize : nat) :
  0 < chunkSize → 0 < n →
  (n + chunkSize - 1) / chunkSize = S ((n - chunkSize + chunkSize - 1) / chunkSize).
Proof.
  intros HC Hn. destruct (decide (n ≤ chunkSize)) as [Hle|Hgt].
  - replace (n - chunkSize) with 0 by lia.
    rewrite (Nat.div_small (0 + chunkSize - 1)) by lia.
    symmetry. apply (Nat.div_unique _ _ 1 (n - 1)); lia.
  - replace (n + chunkSize - 1) with ((n - chunkSize + chunkSize - 1) + 1 * chunkSize)
      by lia.
    rewrite Nat.div_add by lia. lia.
Qed.

Section Split.

Context (fullText : string) (chunkSize : nat).
Hypothesis chunkSize_pos : 0 < chunkSize.

Let L := String.length fullText.

Lemma splitLoop_spec : ∀ fuel i textChunks,
  L - i ≤ fuel →
  ∃ rest,
    splitLoop fuel fullText chunkSize i textChunks = Some (textChunks ++ rest)%list ∧
    length rest = (L - i + chunkSize - 1) / chunkSize ∧
    foldr String.append "" rest = String.substring i (L - i) fullText ∧
    ∀ j, j < length rest →
         rest !! j = Some (String.substring (i + j * chunkSize) chunkSize fullText).
Proof.
  induction fuel as [|fuel IH]; intros i textChunks Hfuel.
  - exists []. simpl. destruct (decide (i < String.length fullText)); [subst L; lia|].
    rewrite app_nil_r. replace (L - i) with 0 by (subst L; lia).
    repeat split.
    + rewrite Nat.div_small; simpl; lia.
    + by rewrite substring_empty.
    + simpl. lia.
  - simpl. destruct (decide (i < String.length fullText)) as [Hlt|Hge].
    + destruct (IH (i + chunkSize)
                  (textChunks ++ [String.substring i chunkSize fullText])%list)
        as (rest & Hloop & Hlen & Hcat & Hnth); [lia|].
      exists (String.substring i chunkSize fullText :: rest).
      rewrite Hloop, <- app_assoc. simpl. repeat split.
      * rewrite Hlen. replace (L - (i + chunkSize)) with (L - i - chunkSize) by lia.
        symmetry. apply ceiling_step; subst L; lia.
      * rewrite Hcat. destruct (decide (L - i ≤ chunkSize)) as [Hshort|Hlong].
        -- rewrite (substring_beyond _ (i + chunkSize)) by (subst L; lia).
           replace (L - (i + chunkSize)) with 0 by lia.
           replace chunkSize with ((L - i) + (chunkSize - (L - i))) at 1 by lia.
           rewrite substring_split.
           rewrite (substring_beyond _ (i + (L - i))) by (subst L; lia).
           by rewrite !append_empty_r.
        -- replace (L - i) with (chunkSize + (L - (i + chunkSize))) by lia.
           by rewrite substring_split.
      * intros [|j] Hj; simpl.
        -- by rewrite Nat.add_0_r.
        -- rewrite Hnth by lia. do 2 f_equal. lia.
    + exists []. rewrite app_nil_r. replace (L - i) with 0 by (subst L; lia).
      repeat split.
      * rewrite Nat.div_small; simpl; lia.
      * by rewrite substring_empty.
      * simpl. lia.
Qed.

End Split.

Lemma splitText_terminates (fullText : string) (chunkSize : nat) :
  0 < chunkSize → ∃ textChunks, splitText fullText chunkSize = Some textChunks.
Proof.
  intros HC.
  destruct (splitLoop_spec fullText chunkSize HC (String.length fullText) 0 [])
    as (rest & Hloop & _); [lia|].
  exists rest. exact Hloop.
Qed.

(** C6 — For a chunk size [C > 0] the split of a text of length [L]
    terminates with [ceil(L / C)] slices; slice [j] is the [C] characters
    of the text from position [j * C] on, so the slices are contiguous,
    ordered and do not overlap; every slice but the last has exactly [C]
    characters, the last holds the remaining [L - (n - 1) * C] (between 1
    and [C]); and the slices concatenated in order are the text. *)
Theorem splitText_chunks (fullText : string) (chunkSize : nat) :
  0 < chunkSize →
  ∃ textChunks,
    splitText fullText chunkSize = Some textChunks ∧
    length textChunks = (String.length fullText + chunkSize - 1) / chunkSize ∧
    (∀ j chunk,
       textChunks !! j = Some chunk →
       chunk = String.substring (j * chunkSize) chunkSize fullText ∧
       (S j < length textChunks → String.length chunk = chunkSize) ∧
       (S j = length textChunks →
          String.length chunk = String.length fullText - j * chunkSize ∧
          0 < String.length chunk ≤ chunkSize)) ∧
    foldr String.append "" textChunks = fullText.
Proof.
  intros HC.
  destruct (splitLoop_spec fullText chunkSize HC (String.length fullText) 0 [])
    as (rest & Hloop & Hlen & Hcat & Hnth); [lia|].
  exists rest. unfold splitText. rewrite Hloop. simpl.
  rewrite Nat.sub_0_r in *.
  set (L := String.length fullText) in *.
  set (n := (L + chunkSize - 1) / chunkSize) in *.
  assert (Hdiv : L + chunkSize - 1 = chunkSize * n + (L + chunkSize - 1) mod chunkSize)
    by apply Nat.div_mod_eq.
  assert (Hmod : (L + chunkSize - 1) mod chunkSize < chunkSize)
    by (apply Nat.mod_upper_bound; lia).
  split; [done|]. split; [done|]. split; [|by rewrite Hcat; apply substring_all].
  intros j chunk Hchunk.
  apply lookup_lt_Some in Hchunk as Hj.
  rewrite Hnth in Hchunk by done. simpl in Hchunk. injection Hchunk as <-.
  rewrite substring_length. fold L. rewrite Hlen in *.
  split; [done|]. split.
  - intros Hnotlast.
    assert (chunkSize * (j + 2) ≤ chunkSize * n) by (apply Nat.mul_le_mono_l; lia).
    lia.
  - intros Hlast.
    assert (chunkSize * S j = chunkSize * n) by (by rewrite Hlast).
    lia.
Qed.

Lemma splitText_chunks_witness :
  splitText "open plan kitchen" 5 = Some ["open "; "plan "; "kitch"; "en"] ∧
  ∃ textChunks,
    splitText "open plan kitchen" 5 = Some textChunks ∧
    length textChunks = 4 ∧
    foldr String.append "" textChunks = "open plan kitchen".
Proof.
  split; [reflexivity|].
  destruct (splitText_chunks "open plan kitchen" 5) as (chunks & Hsplit & Hlen & _ & Hcat);
    [lia|].
  exists chunks. repeat split; assumption.
Defined.

(** ** Merging chunk results *)

Lemma mergeField_lookup (m : gmap string Value) (k : string) (v : Value) (k' : string) :
  mergeField m k v !! k' =
    if decide (k = k')
    then (λ (_ : string) newValue existingValue,
            match newValue with
            | VArray new =>
                Some (VArray match existingValue with
                             | Some (VArray existing) => existing ++ new
                             | _ => new
                             end)
            | VObject new =>
                Some (VObject match existingValue with
                              | Some (VObject existing) => new ∪ existing
                              | _ => new
                              end)
            | VUndefined | VNull =>
                match existingValue with
                | None => Some newValue
                | Some _ => existingValue
                end
            | _ => Some newValue
            end) k v (m !! k)
    else m !! k'.
Proof.
  unfold mergeField.
  destruct v; try (rewrite lookup_insert; by case_decide);
    destruct (m !! k) eqn:Hk; rewrite ?lookup_insert;
    case_decide; subst; try done.
Qed.

Lemma mergeChunk_lookup (acc : gmap string Value) (currentResult : Value) (key : string) :
  mergeChunk acc currentResult !! key =
    match ownProps currentResult !! key with
    | None => acc !! key
    | Some (VArray new) =>
        Some (VArray match acc !! key with
                     | Some (VArray existing) => existing ++ new
                     | _ => new
                     end)
    | Some (VObject new) =>
        Some (VObject match acc !! key with
                      | Some (VObject existing) => new ∪ existing
                      | _ => new
                      end)
    | Some VUndefined => Some (default VUndefined (acc !! key))
    | Some VNull => Some (default VNull (acc !! key))
    | Some scalar => Some scalar
    end.
Proof.
  unfold mergeChunk. rewrite (forIn_keywise _ _ mergeField_lookup).
  destruct (ownProps currentResult !! key) as [[]|]; try done;
    by destruct (acc !! key).
Qed.

(** ** The loop over the chunks *)

Section ChunkLoop.

Context (AI : Backend) (modelName : string) (schema : ZodSchema) (total : nat).

Lemma attempts_cons (chunk : string) (rest : list string) (h : History) :
  ∃ r, executeModel AI modelName chunk schema true h =
         Some (Returns r, h ++ attemptCalls modelName chunk schema) ∧
       modelUsed r = modelName ∧
       attempts AI modelName schema (chunk :: rest) h =
         r :: attempts AI modelName schema rest (h ++ attemptCalls modelName chunk schema).
Proof.
  destruct (executeModel_returns AI modelName chunk schema true h)
    as (r & Hexec & Hmodel & _).
  exists r. simpl. by rewrite Hexec.
Qed.

Lemma attempts_parsed (chunks : list string) : ∀ h,
  Forall (λ r, success r = true → ∃ v, parse schema v = Returns (structuredResult r))
    (attempts AI modelName schema chunks h).
Proof.
  induction chunks as [|chunk rest IH]; intros h; [constructor|].
  destruct (attempts_cons chunk rest h) as (r & Hexec & _ & ->).
  constructor; [|apply IH].
  destruct (executeModel_returns AI modelName chunk schema true h)
    as (r0 & Hexec0 & _ & _ & Hshape).
  rewrite Hexec in Hexec0. injection Hexec0 as <-.
  intros Hsuccess. destruct Hshape as [[? _]|(_ & _ & candidate & Hparse)]; [congruence|].
  eauto.
Qed.

Lemma chunkLoop_complete (pending : list string) : ∀ i st h,
  Forall (λ r, usable r = true) (attempts AI modelName schema pending h) →
  orModel (firstSuccessfulModel st) modelName = modelName →
  ∃ first,
    orModel first modelName = modelName ∧
    chunkLoop AI modelName schema total i pending st h =
      Some (Returns (inr {|
              mergedResults :=
                foldl mergeChunk (mergedResults st)
                  (structuredResult <$> attempts AI modelName schema pending h);
              firstSuccessfulModel := first |}),
            h ++ chunkCalls modelName schema pending).
Proof.
  induction pending as [|chunk rest IH]; intros i st h Hall Hfirst.
  - exists (firstSuccessfulModel st). split; [done|].
    simpl. unfold chunkCalls. simpl. rewrite app_nil_r. by destruct st.
  - destruct (attempts_cons chunk rest h) as (r & Hexec & Hmodel & Hatt).
    rewrite Hatt in *. apply Forall_cons in Hall as [Hr Hall].
    unfold usable in Hr. apply andb_prop in Hr as [Hsuccess Htruthy].
    edestruct (IH (i + 1)
                 {| mergedResults := mergeChunk (mergedResults st) (structuredResult r);
                    firstSuccessfulModel :=
                      if named (firstSuccessfulModel st) then firstSuccessfulModel st
                      else Some (modelUsed r) |}
                 (h ++ attemptCalls modelName chunk schema) Hall)
      as (first & Hfirst' & Hloop).
    { simpl. destruct (named (firstSuccessfulModel st)) eqn:Hnamed; [done|].
      rewrite Hmodel. unfold orModel. by destruct (named (Some modelName)). }
    exists first. split; [done|].
    simpl. unfold mbind at 1, M_bind. rewrite Hexec, Hsuccess, Htruthy. simpl.
    rewrite Hloop. unfold chunkCalls. simpl. by rewrite app_assoc.
Qed.

Lemma chunkLoop_abort (pending : list string) : ∀ i st h k r,
  attempts AI modelName schema pending h !! k = Some r →
  usable r = false →
  (∀ j r', j < k → attempts AI modelName schema pending h !! j = Some r' →
           usable r' = true) →
  chunkLoop AI modelName schema total i pending st h =
    Some (Returns (inl {|
            success := false;
            modelUsed := modelName;
            structuredResult := VNull;
            error := Some ("Chunking failure on chunk " +:+ pretty (i + k + 1)
                           +:+ "/" +:+ pretty total +:+ ": " +:+ render (error r));
            isChunked := Some true |}),
          h ++ chunkCalls modelName schema (take (S k) pending)).
Proof.
  induction pending as [|chunk rest IH]; intros i st h k r Hk Hbad Hbefore.
  - by destruct k.
  - destruct (attempts_cons chunk rest h) as (r0 & Hexec & Hmodel & Hatt).
    rewrite Hatt in *. destruct k as [|k]; simpl in Hk.
    + injection Hk as ->.
      cbn [chunkLoop]. unfold mbind at 1, M_bind. rewrite Hexec.
      unfold usable in Hbad.
      replace (negb (success r) || negb (truthy (structuredResult r))) with true
        by (by destruct (success r), (truthy (structuredResult r))).
      unfold chunkCalls. simpl. rewrite Nat.add_0_r, app_nil_r. done.
    + assert (Hr0 : usable r0 = true) by (apply (Hbefore 0); [lia|done]).
      unfold usable in Hr0. apply andb_prop in Hr0 as [Hsuccess Htruthy].
      cbn [chunkLoop]. unfold mbind at 1, M_bind. rewrite Hexec, Hsuccess, Htruthy.
      cbn [negb orb].
      rewrite (IH (i + 1) _ _ k r Hk Hbad).
      * replace (i + 1 + k + 1) with (i + S k + 1) by lia.
        unfold chunkCalls. simpl. by rewrite app_assoc.
      * intros j r' Hj Hr'. apply (Hbefore (S j)); [lia|done].
Qed.

End ChunkLoop.

Lemma first_unusable (l : list ExtractionResult) :
  Forall (λ a, usable a = true) l ∨
  ∃ k bad, l !! k = Some bad ∧ usable bad = false ∧
           ∀ j r', j < k → l !! j = Some r' → usable r' = true.
Proof.
  induction l as [|a l IH]; [by left|].
  destruct (usable a) eqn:Ha.
  - destruct IH as [Hall|(k & bad & Hk & Hbad & Hbefore)].
    + left. by constructor.
    + right. exists (S k), bad. split; [done|]. split; [done|].
      intros [|j] r' Hj Hr'; simpl in Hr'; [congruence|].
      apply (Hbefore j); [lia|done].
  - right. exists 0, a. split; [done|]. split; [done|]. intros j r' Hj. lia.
Qed.

(** C3 — chunkAndMerge attempts its chunks one after the other.  When the
    attempt on chunk [i] (counted from 0) returns [success: false] and every
    earlier attempt yielded a usable result (a success with a truthy
    structuredResult, which is every success when the schema never parses to
    a falsy value), the method returns at once a [success: false] record with
    a [null] structuredResult whose error reads
    ["Chunking failure on chunk <i+1>/<n>: <that attempt's error>"]; the
    backend calls made are those of chunks [0..i], in order, and none for
    a later chunk.  A [success: true] record is returned only when the
    attempt on every chunk succeeded. *)
Theorem chunkAndMerge_fail_fast (AI : Backend) (maxSmallContextChars : nat)
    (modelName fullText : string) (schema : ZodSchema) (h : History)
    (textChunks : list string) :
  splitText fullText maxSmallContextChars = Some textChunks →
  let results := attempts AI modelName schema textChunks h in
  let outcome := chunkAndMerge AI maxSmallContextChars modelName fullText schema h in
  (∀ i r,
     results !! i = Some r →
     success r = false →
     (∀ j r', j < i → results !! j = Some r' → usable r' = true) →
     outcome =
       Some (Returns {|
               success := false;
               modelUsed := modelName;
               structuredResult := VNull;
               error := Some ("Chunking failure on chunk " +:+ pretty (i + 1)
                              +:+ "/" +:+ pretty (length textChunks) +:+ ": "
                              +:+ render (error r));
               isChunked := Some true |},
             h ++ chunkCalls modelName schema (take (S i) textChunks))) ∧
  ((∀ v out, parse schema v = Returns out → truthy out = true) →
   ∀ j r', results !! j = Some r' → success r' = true → usable r' = true) ∧
  (∀ r h', outcome = Some (Returns r, h') → success r = true →
           Forall (λ attempt, success attempt = true) results).
Proof.
  intros Hsplit results outcome. subst results outcome. split; [|split].
  2:{ intros Htruthy j r' Hj Hsuccess. unfold usable. rewrite Hsuccess. simpl.
      pose proof (attempts_parsed AI modelName schema textChunks h) as Hparsed.
      rewrite Forall_lookup in Hparsed.
      destruct (Hparsed j r' Hj Hsuccess) as [v Hv]. by eapply Htruthy. }
  - intros i r Hi Hfailed Hbefore.
    unfold chunkAndMerge. unfold mbind at 1, M_bind. unfold liftLoop.
    rewrite Hsplit. unfold mbind at 1, M_bind.
    rewrite (chunkLoop_abort AI modelName schema (length textChunks) textChunks
               0 _ h i r Hi); [done| |done].
    unfold usable. by rewrite Hfailed.
  - intros r h' Hout Hsuccess.
    destruct (first_unusable (attempts AI modelName schema textChunks h))
      as [Hall|(k & bad & Hk & Hbad & Hbefore)].
    + eapply Forall_impl; [exact Hall|].
      intros a Ha. unfold usable in Ha. by apply andb_prop in Ha as [? _].
    + exfalso.
      unfold chunkAndMerge in Hout. unfold mbind at 1, M_bind in Hout.
      unfold liftLoop in Hout. rewrite Hsplit in Hout.
      unfold mbind at 1, M_bind in Hout.
      rewrite (chunkLoop_abort AI modelName schema (length textChunks) textChunks
                 0 _ h k bad Hk Hbad Hbefore) in Hout.
      injection Hout as <- _. discriminate.
Qed.

(** When every chunk yields a usable result the method validates the fold
    of the merge over the results, taken in chunk order. *)
Lemma chunkAndMerge_complete (AI : Backend) (maxSmallContextChars : nat)
    (modelName fullText : string) (schema : ZodSchema) (h : History)
    (textChunks : list string) :
  splitText fullText maxSmallContextChars = Some textChunks →
  Forall (λ r, usable r = true) (attempts AI modelName schema textChunks h) →
  chunkAndMerge AI maxSmallContextChars modelName fullText schema h =
    Some (Returns (validatedMerge modelName schema
                     (mergeAll (structuredResult <$>
                                  attempts AI modelName schema textChunks h))),
          h ++ chunkCalls modelName schema textChunks).
Proof.
  intros Hsplit Hall.
  destruct (chunkLoop_complete AI modelName schema (length textChunks) textChunks 0
              {| mergedResults := ∅; firstSuccessfulModel := None |} h Hall)
    as (first & Hfirst & Hloop); [done|].
  unfold chunkAndMerge. unfold mbind at 1, M_bind. unfold liftLoop.
  rewrite Hsplit. unfold mbind at 1, M_bind. rewrite Hloop.
  unfold lift, validatedMerge, tryCatchPure, mergeAll. simpl. rewrite Hfirst.
  by destruct (fillMissingFields schema _).
Qed.




Lemma chunkAndMerge_fail_fast_witness :
  splitText "open plan kitchen" 6 = Some ["open p"; "lan ki"; "tchen"] ∧
  returned (chunkAndMerge (Examples.failingOn 1 (VObject {[ "name" := VString "plan" ]}))
              6 "llama-4-scout" "open plan kitchen" Examples.nameTagsSchema [])
    = Some {| success := false;
              modelUsed := "llama-4-scout";
              structuredResult := VNull;
              error := Some "Chunking failure on chunk 2/3: Model llama-4-scout failed: rate limited";
              isChunked := Some true |} ∧
  invoked <$> historyAfter
      (chunkAndMerge (Examples.failingOn 1 (VObject {[ "name" := VString "plan" ]}))
         6 "llama-4-scout" "open plan kitchen" Examples.nameTagsSchema [])
    = Some ["llama-4-scout"; "llama-4-scout"].
Proof.
  split; [reflexivity|].
  destruct (chunkAndMerge_fail_fast
              (Examples.failingOn 1 (VObject {[ "name" := VString "plan" ]}))
              6 "llama-4-scout" "open plan kitchen" Examples.nameTagsSchema []
              ["open p"; "lan ki"; "tchen"] eq_refl) as [Habort _].
  cbv zeta in Habort.
  rewrite (Habort 1 {| success := false;
                       modelUsed := "llama-4-scout";
                       structuredResult := VNull;
                       error := Some "Model llama-4-scout failed: rate limited";
                       isChunked := Some true |}).
  - split; reflexivity.
  - vm_compute. reflexivity.
  - reflexivity.
  - intros [|j] r' Hj Hr'; [|lia].
    vm_compute in Hr'. injection Hr' as <-. reflexivity.
Defined.

(** ** analyzeText *)

Lemma executeModel_at (AI : Backend) (modelName textPayload : string)
    (schema : ZodSchema) (isChunk : bool) (h : History) (r : ExtractionResult) :
  returned (executeModel AI modelName textPayload schema isChunk h) = Some r →
  executeModel AI modelName textPayload schema isChunk h =
    Some (Returns r, h ++ attemptCalls modelName textPayload schema) ∧
  (success r = false → ∃ message, error r = Some message) ∧
  (success r = true → invoked (attemptCalls modelName textPayload schema) = [modelName]).
Proof.
  intros Hr.
  destruct (executeModel_returns AI modelName textPayload schema isChunk h)
    as (r0 & Hexec & _ & _ & Hshape).
  rewrite Hexec in Hr. simpl in Hr. injection Hr as ->.
  split; [done|]. split.
  - intros Hfailed. destruct Hshape as [(_ & _ & message & ->)|[? _]]; [eauto|congruence].
  - intros Hsuccess. clear Hshape. revert Hexec. unfold attemptCalls.
    destruct (toJsonSchema schema) as [jsonSchema|e] eqn:Hjs.
    + destruct (usableWireSchema (stripMeta jsonSchema)) eqn:Husable; [done|].
      rewrite (executeModel_unusable _ _ _ _ _ _ _ Hjs Husable).
      intros [= <-]. discriminate.
    + rewrite (executeModel_schema_throws _ _ _ _ _ _ _ Hjs).
      intros [= <-]. discriminate.
Qed.

Section AnalyzeText.

Context (AI : Backend) (maxSmallContextChars : nat).
Context (Hermes2Pro Llama3_3 Llama4Scout MistralSmall3_1 : string).
Context (schema : ZodSchema) (textPayload : string) (h : History).
Hypothesis nonempty : textPayload ≠ "".

Let attempt (modelName : string) (h : History) : option ExtractionResult :=
  returned (executeModel AI modelName textPayload schema false h).
Let calls (modelName : string) : History := attemptCalls modelName textPayload schema.
Let outcome : option (Result ExtractionResult * History) :=
  analyzeText AI maxSmallContextChars Hermes2Pro Llama3_3 Llama4Scout MistralSmall3_1
    schema textPayload h.

Lemma analyzeText_small (r1 r2 r3 r4 : ExtractionResult) :
  String.length textPayload ≤ maxSmallContextChars →
  attempt Hermes2Pro h = Some r1 →
  attempt MistralSmall3_1 (h ++ calls Hermes2Pro) = Some r2 →
  attempt Llama4Scout (h ++ calls Hermes2Pro ++ calls MistralSmall3_1) = Some r3 →
  attempt Llama3_3
    (h ++ calls Hermes2Pro ++ calls MistralSmall3_1 ++ calls Llama4Scout) = Some r4 →
  outcome =
    if success r1 then Some (Returns r1, h ++ calls Hermes2Pro)
    else if success r2 then
      Some (Returns r2, h ++ calls Hermes2Pro ++ calls MistralSmall3_1)
    else if success r3 then
      Some (Returns r3, h ++ calls Hermes2Pro ++ calls MistralSmall3_1 ++ calls Llama4Scout)
    else if success r4 then
      Some (Returns r4, h ++ calls Hermes2Pro ++ calls MistralSmall3_1
                          ++ calls Llama4Scout ++ calls Llama3_3)
    else
      Some (Returns {|
              success := false;
              modelUsed := Llama3_3;
              structuredResult := VNull;
              error := Some ("All models (" +:+ Hermes2Pro +:+ ", " +:+ MistralSmall3_1
                             +:+ ", " +:+ Llama4Scout +:+ ", " +:+ Llama3_3
                             +:+ ") failed to generate a valid structured response. Last error: "
                             +:+ render (error r4));
              isChunked := None |},
            h ++ calls Hermes2Pro ++ calls MistralSmall3_1
              ++ calls Llama4Scout ++ calls Llama3_3).
Proof.
  intros Hsmall H1 H2 H3 H4. subst outcome attempt calls. simpl in *.
  apply executeModel_at in H1 as [H1 _], H2 as [H2 _], H3 as [H3 _], H4 as [H4 _].
  rewrite <- !app_assoc in *.
  unfold analyzeText.
  destruct (String.eqb_spec textPayload ""); [done|].
  destruct (decide (maxSmallContextChars < String.length textPayload)); [lia|].
  unfold mbind at 1, M_bind. rewrite H1. destruct (success r1); [done|].
  unfold mbind at 1, M_bind. rewrite H2. destruct (success r2); [done|].
  unfold mbind at 1, M_bind. rewrite H3. destruct (success r3); [done|].
  unfold mbind at 1, M_bind. rewrite H4. destruct (success r4); done.
Qed.

Lemma analyzeText_large (r1 r2 : ExtractionResult) :
  maxSmallContextChars < String.length textPayload →
  attempt Llama4Scout h = Some r1 →
  attempt MistralSmall3_1 (h ++ calls Llama4Scout) = Some r2 →
  outcome =
    if success r1 then Some (Returns r1, h ++ calls Llama4Scout)
    else if success r2 then
      Some (Returns r2, h ++ calls Llama4Scout ++ calls MistralSmall3_1)
    else
      chunkAndMerge AI maxSmallContextChars Llama4Scout textPayload schema
        (h ++ calls Llama4Scout ++ calls MistralSmall3_1).
Proof.
  intros Hlarge H1 H2. subst outcome attempt calls. simpl in *.
  apply executeModel_at in H1 as [H1 _], H2 as [H2 _].
  rewrite <- !app_assoc in *.
  unfold analyzeText.
  destruct (String.eqb_spec textPayload ""); [done|].
  destruct (decide (maxSmallContextChars < String.length textPayload)); [|lia].
  unfold mbind at 1, M_bind. rewrite H1. destruct (success r1); [done|].
  unfold mbind at 1, M_bind. rewrite H2. destruct (success r2); done.
Qed.

End AnalyzeText.

(** C5 — analyzeText picks its backends by the length of the text against
    [maxSmallContextChars] and tries them one after the other.  At or below
    the threshold the order is Hermes2Pro, MistralSmall3_1, Llama4Scout,
    Llama3_3; the first attempt that succeeds is returned and the calls
    made are those of the backends up to it, so that when only the second
    succeeds exactly the first and the second were invoked.  Above the
    threshold the order is Llama4Scout, then MistralSmall3_1, and when both
    fail the method continues as chunkAndMerge with Llama4Scout. *)
Theorem analyzeText_cascade (AI : Backend) (maxSmallContextChars : nat)
    (Hermes2Pro Llama3_3 Llama4Scout MistralSmall3_1 : string)
    (schema : ZodSchema) (textPayload : string) (h : History) :
  textPayload ≠ "" →
  let attempt modelName h :=
    returned (executeModel AI modelName textPayload schema false h) in
  let calls modelName := attemptCalls modelName textPayload schema in
  let outcome :=
    analyzeText AI maxSmallContextChars Hermes2Pro Llama3_3 Llama4Scout
      MistralSmall3_1 schema textPayload h in
  (String.length textPayload ≤ maxSmallContextChars →
   ∀ r1 r2 r3 r4,
     attempt Hermes2Pro h = Some r1 →
     attempt MistralSmall3_1 (h ++ calls Hermes2Pro) = Some r2 →
     attempt Llama4Scout (h ++ calls Hermes2Pro ++ calls MistralSmall3_1) = Some r3 →
     attempt Llama3_3
       (h ++ calls Hermes2Pro ++ calls MistralSmall3_1 ++ calls Llama4Scout) = Some r4 →
     (success r1 = true → outcome = Some (Returns r1, h ++ calls Hermes2Pro)) ∧
     (success r1 = false → success r2 = true →
        outcome = Some (Returns r2, h ++ calls Hermes2Pro ++ calls MistralSmall3_1) ∧
        invoked (calls Hermes2Pro ++ calls MistralSmall3_1)
          = [Hermes2Pro; MistralSmall3_1]) ∧
     (success r1 = false → success r2 = false → success r3 = true →
        outcome = Some (Returns r3, h ++ calls Hermes2Pro ++ calls MistralSmall3_1
                                      ++ calls Llama4Scout)) ∧
     (success r1 = false → success r2 = false → success r3 = false →
      success r4 = true →
        outcome = Some (Returns r4, h ++ calls Hermes2Pro ++ calls MistralSmall3_1
                                      ++ calls Llama4Scout ++ calls Llama3_3))) ∧
  (maxSmallContextChars < String.length textPayload →
   ∀ r1 r2,
     attempt Llama4Scout h = Some r1 →
     attempt MistralSmall3_1 (h ++ calls Llama4Scout) = Some r2 →
     (success r1 = true → outcome = Some (Returns r1, h ++ calls Llama4Scout)) ∧
     (success r1 = false → success r2 = true →
        outcome = Some (Returns r2, h ++ calls Llama4Scout ++ calls MistralSmall3_1)) ∧
     (success r1 = false → success r2 = false →
        outcome = chunkAndMerge AI maxSmallContextChars Llama4Scout textPayload schema
                    (h ++ calls Llama4Scout ++ calls MistralSmall3_1))).
Proof.
  intros Hne attempt calls outcome. split.
  - intros Hsmall r1 r2 r3 r4 H1 H2 H3 H4.
    pose proof (analyzeText_small AI maxSmallContextChars Hermes2Pro Llama3_3
                  Llama4Scout MistralSmall3_1 schema textPayload h Hne
                  r1 r2 r3 r4 Hsmall H1 H2 H3 H4) as Hout.
    fold outcome calls in Hout.
    split; [|split; [|split]].
    + intros S1. by rewrite Hout, S1.
    + intros S1 S2. rewrite Hout, S1, S2. split; [done|].
      apply executeModel_at in H2 as (_ & _ & Hcalled).
      specialize (Hcalled S2). subst calls. cbv beta.
      unfold invoked in *. rewrite fmap_app, Hcalled.
      revert Hcalled. unfold attemptCalls.
      destruct (toJsonSchema schema) as [jsonSchema|]; [|done].
      by destruct (usableWireSchema (stripMeta jsonSchema)).
    + intros S1 S2 S3. by rewrite Hout, S1, S2, S3.
    + intros S1 S2 S3 S4. by rewrite Hout, S1, S2, S3, S4.
  - intros Hlarge r1 r2 H1 H2.
    pose proof (analyzeText_large AI maxSmallContextChars Hermes2Pro Llama3_3
                  Llama4Scout MistralSmall3_1 schema textPayload h Hne
                  r1 r2 Hlarge H1 H2) as Hout.
    fold outcome calls in Hout.
    split; [|split].
    + intros S1. by rewrite Hout, S1.
    + intros S1 S2. by rewrite Hout, S1, S2.
    + intros S1 S2. by rewrite Hout, S1, S2.
Qed.

Lemma analyzeText_cascade_witness :
  returned (analyzeText
              (Examples.onlyModel "mistral-small-3.1" (VObject {[ "name" := VString "sofa" ]}))
              100 "hermes-2-pro" "llama-3.3" "llama-4-scout" "mistral-small-3.1"
              Examples.nameTagsSchema "Add a sofa" [])
    = Some {| success := true;
              modelUsed := "mistral-small-3.1";
              structuredResult := VObject {[ "name" := VString "sofa"; "tags" := VArray [] ]};
              error := None;
              isChunked := Some false |} ∧
  invoked <$> historyAfter (analyzeText
              (Examples.onlyModel "mistral-small-3.1" (VObject {[ "name" := VString "sofa" ]}))
              100 "hermes-2-pro" "llama-3.3" "llama-4-scout" "mistral-small-3.1"
              Examples.nameTagsSchema "Add a sofa" [])
    = Some ["hermes-2-pro"; "mistral-small-3.1"] ∧
  analyzeText Examples.silentBackend 6 "hermes-2-pro" "llama-3.3" "llama-4-scout"
      "mistral-small-3.1" Examples.nameTagsSchema "open plan kitchen" []
    = chunkAndMerge Examples.silentBackend 6 "llama-4-scout" "open plan kitchen"
        Examples.nameTagsSchema
        (attemptCalls "llama-4-scout" "open plan kitchen" Examples.nameTagsSchema
           ++ attemptCalls "mistral-small-3.1" "open plan kitchen" Examples.nameTagsSchema).
Proof.
  assert (Hne : ∀ s c, String c s ≠ "") by done.
  split; [|split].
  - destruct (analyzeText_cascade
                (Examples.onlyModel "mistral-small-3.1" (VObject {[ "name" := VString "sofa" ]}))
                100 "hermes-2-pro" "llama-3.3" "llama-4-scout" "mistral-small-3.1"
                Examples.nameTagsSchema "Add a sofa" [] (Hne _ _)) as [Hsmall _].
    edestruct Hsmall as (_ & Hsecond & _);
      [simpl; lia|reflexivity|reflexivity|reflexivity|reflexivity|].
    destruct Hsecond as [-> _]; reflexivity.
  - destruct (analyzeText_cascade
                (Examples.onlyModel "mistral-small-3.1" (VObject {[ "name" := VString "sofa" ]}))
                100 "hermes-2-pro" "llama-3.3" "llama-4-scout" "mistral-small-3.1"
                Examples.nameTagsSchema "Add a sofa" [] (Hne _ _)) as [Hsmall _].
    edestruct Hsmall as (_ & Hsecond & _);
      [simpl; lia|reflexivity|reflexivity|reflexivity|reflexivity|].
    destruct Hsecond as [-> _]; reflexivity.
  - destruct (analyzeText_cascade Examples.silentBackend 6 "hermes-2-pro" "llama-3.3"
                "llama-4-scout" "mistral-small-3.1" Examples.nameTagsSchema
                "open plan kitchen" [] (Hne _ _)) as [_ Hlarge].
    edestruct Hlarge as (_ & _ & Hescalate); [simpl; lia|reflexivity|reflexivity|].
    apply Hescalate; reflexivity.
Defined.

(** C9 (as the code has it) — When the text is at or below the threshold
    and all four attempts fail, analyzeText returns a failure record whose
    error lists the four backends in the order tried and ends with the error
    message of the last attempt, and whose modelUsed is the last backend
    tried.  Above the threshold the method ends in chunkAndMerge instead
    (see C5). *)
Theorem analyzeText_exhausted (AI : Backend) (maxSmallContextChars : nat)
    (Hermes2Pro Llama3_3 Llama4Scout MistralSmall3_1 : string)
    (schema : ZodSchema) (textPayload : string) (h : History)
    (r1 r2 r3 r4 : ExtractionResult) :
  textPayload ≠ "" →
  String.length textPayload ≤ maxSmallContextChars →
  let attempt modelName h :=
    returned (executeModel AI modelName textPayload schema false h) in
  let calls modelName := attemptCalls modelName textPayload schema in
  attempt Hermes2Pro h = Some r1 →
  attempt MistralSmall3_1 (h ++ calls Hermes2Pro) = Some r2 →
  attempt Llama4Scout (h ++ calls Hermes2Pro ++ calls MistralSmall3_1) = Some r3 →
  attempt Llama3_3
    (h ++ calls Hermes2Pro ++ calls MistralSmall3_1 ++ calls Llama4Scout) = Some r4 →
  success r1 = false → success r2 = false → success r3 = false → success r4 = false →
  ∃ lastError,
    error r4 = Some lastError ∧
    analyzeText AI maxSmallContextChars Hermes2Pro Llama3_3 Llama4Scout
        MistralSmall3_1 schema textPayload h =
      Some (Returns {|
              success := false;
              modelUsed := Llama3_3;
              structuredResult := VNull;
              error := Some ("All models (" +:+ Hermes2Pro +:+ ", " +:+ MistralSmall3_1
                             +:+ ", " +:+ Llama4Scout +:+ ", " +:+ Llama3_3
                             +:+ ") failed to generate a valid structured response. Last error: "
                             +:+ lastError);
              isChunked := None |},
            h ++ calls Hermes2Pro ++ calls MistralSmall3_1
              ++ calls Llama4Scout ++ calls Llama3_3).
Proof.
  intros Hne Hsmall attempt calls H1 H2 H3 H4 S1 S2 S3 S4.
  pose proof (analyzeText_small AI maxSmallContextChars Hermes2Pro Llama3_3
                Llama4Scout MistralSmall3_1 schema textPayload h Hne
                r1 r2 r3 r4 Hsmall H1 H2 H3 H4) as Hout.
  rewrite S1, S2, S3, S4 in Hout.
  apply executeModel_at in H4 as (_ & Hmessage & _).
  destruct (Hmessage S4) as [lastError Hlast].
  exists lastError. split; [done|]. rewrite Hout, Hlast. done.
Qed.

Lemma analyzeText_exhausted_witness :
  returned (analyzeText Examples.silentBackend 100 "hermes-2-pro" "llama-3.3"
              "llama-4-scout" "mistral-small-3.1" Examples.nameTagsSchema "Add a sofa" [])
    = Some {| success := false;
              modelUsed := "llama-3.3";
              structuredResult := VNull;
              error := Some "All models (hermes-2-pro, mistral-small-3.1, llama-4-scout, llama-3.3) failed to generate a valid structured response. Last error: Model llama-3.3 failed: Model llama-3.3 returned an empty or invalid response.";
              isChunked := None |}.
Proof.
  assert (Hne : ∀ s c, String c s ≠ "") by done.
  edestruct (analyzeText_exhausted Examples.silentBackend 100 "hermes-2-pro" "llama-3.3"
              "llama-4-scout" "mistral-small-3.1" Examples.nameTagsSchema "Add a sofa" [])
    as (lastError & Hlast & Hout);
    [apply Hne|simpl; lia|reflexivity|reflexivity|reflexivity|reflexivity
    |reflexivity|reflexivity|reflexivity|reflexivity|].
  rewrite Hout. injection Hlast as <-. reflexivity.
Defined.

(** ** The shape of the returned records *)

Lemma attempt_shape (AI : Backend) (modelName textPayload : string)
    (schema : ZodSchema) (isChunk : bool) (h : History) :
  ∃ r, returned (executeModel AI modelName textPayload schema isChunk h) = Some r ∧
       resultShape schema r ∧ isChunked r = Some isChunk.
Proof.
  destruct (executeModel_returns AI modelName textPayload schema isChunk h)
    as (r & Hexec & _ & Hchunked & Hshape).
  exists r. rewrite Hexec. split; [done|]. split; [|done].
  unfold resultShape.
  destruct Hshape as [(-> & -> & message & ->)|(-> & -> & candidate & Hparse)]; eauto.
Qed.

Lemma validatedMerge_shape (modelName : string) (schema : ZodSchema)
    (merged : gmap string Value) :
  resultShape schema (validatedMerge modelName schema merged) ∧
  isChunked (validatedMerge modelName schema merged) = Some true.
Proof.
  unfold validatedMerge, resultShape.
  destruct (fillMissingFields schema (VObject merged)) as [v|e] eqn:Hfill; simpl; eauto.
Qed.

Lemma chunkAndMerge_shape (AI : Backend) (maxSmallContextChars : nat)
    (modelName fullText : string) (schema : ZodSchema) (h : History) :
  0 < maxSmallContextChars →
  ∃ r h', chunkAndMerge AI maxSmallContextChars modelName fullText schema h
            = Some (Returns r, h') ∧
          resultShape schema r ∧ isChunked r = Some true.
Proof.
  intros Hpos.
  destruct (splitText_terminates fullText maxSmallContextChars Hpos)
    as (textChunks & Hsplit).
  destruct (first_unusable (attempts AI modelName schema textChunks h))
    as [Hall|(k & bad & Hk & Hbad & Hbefore)].
  - rewrite (chunkAndMerge_complete _ _ _ _ _ _ _ Hsplit Hall).
    do 2 eexists. split; [done|]. apply validatedMerge_shape.
  - unfold chunkAndMerge. unfold mbind at 1, M_bind. unfold liftLoop.
    rewrite Hsplit. unfold mbind at 1, M_bind.
    rewrite (chunkLoop_abort AI modelName schema (length textChunks) textChunks
               0 _ h k bad Hk Hbad Hbefore).
    do 2 eexists. split; [done|]. unfold resultShape. simpl. eauto.
Qed.

Lemma analyzeText_shape (AI : Backend) (maxSmallContextChars : nat)
    (Hermes2Pro Llama3_3 Llama4Scout MistralSmall3_1 : string)
    (schema : ZodSchema) (textPayload : string) (h : History) :
  0 < maxSmallContextChars → textPayload ≠ "" →
  ∃ r h', analyzeText AI maxSmallContextChars Hermes2Pro Llama3_3 Llama4Scout
            MistralSmall3_1 schema textPayload h = Some (Returns r, h') ∧
          resultShape schema r ∧
          (is_Some (isChunked r) ∨
           (success r = false ∧ modelUsed r = Llama3_3 ∧
            String.length textPayload ≤ maxSmallContextChars)).
Proof.
  intros Hpos Hne.
  set (calls m := attemptCalls m textPayload schema).
  destruct (decide (maxSmallContextChars < String.length textPayload)) as [Hlarge|Hsmall].
  - destruct (attempt_shape AI Llama4Scout textPayload schema false h)
      as (r1 & H1 & Hs1 & Hc1).
    destruct (attempt_shape AI MistralSmall3_1 textPayload schema false
                (h ++ calls Llama4Scout)) as (r2 & H2 & Hs2 & Hc2).
    rewrite (analyzeText_large AI maxSmallContextChars Hermes2Pro Llama3_3 Llama4Scout
               MistralSmall3_1 schema textPayload h Hne r1 r2 Hlarge H1 H2).
    destruct (success r1) eqn:S1; [do 2 eexists; split; [done|]; rewrite Hc1; eauto|].
    destruct (success r2) eqn:S2; [do 2 eexists; split; [done|]; rewrite Hc2; eauto|].
    destruct (chunkAndMerge_shape AI maxSmallContextChars Llama4Scout textPayload schema
                (h ++ attemptCalls Llama4Scout textPayload schema
                   ++ attemptCalls MistralSmall3_1 textPayload schema) Hpos)
      as (r & h' & -> & Hs & Hc).
    do 2 eexists. split; [done|]. rewrite Hc. eauto.
  - destruct (attempt_shape AI Hermes2Pro textPayload schema false h)
      as (r1 & H1 & Hs1 & Hc1).
    destruct (attempt_shape AI MistralSmall3_1 textPayload schema false
                (h ++ calls Hermes2Pro)) as (r2 & H2 & Hs2 & Hc2).
    destruct (attempt_shape AI Llama4Scout textPayload schema false
                (h ++ calls Hermes2Pro ++ calls MistralSmall3_1))
      as (r3 & H3 & Hs3 & Hc3).
    destruct (attempt_shape AI Llama3_3 textPayload schema false
                (h ++ calls Hermes2Pro ++ calls MistralSmall3_1 ++ calls Llama4Scout))
      as (r4 & H4 & Hs4 & Hc4).
    rewrite (analyzeText_small AI maxSmallContextChars Hermes2Pro Llama3_3 Llama4Scout
               MistralSmall3_1 schema textPayload h Hne r1 r2 r3 r4
               ltac:(lia) H1 H2 H3 H4).
    destruct (success r1) eqn:S1; [do 2 eexists; split; [done|]; rewrite Hc1; eauto|].
    destruct (success r2) eqn:S2; [do 2 eexists; split; [done|]; rewrite Hc2; eauto|].
    destruct (success r3) eqn:S3; [do 2 eexists; split; [done|]; rewrite Hc3; eauto|].
    destruct (success r4) eqn:S4; [do 2 eexists; split; [done|]; rewrite Hc4; eauto|].
    do 2 eexists. split; [done|]. split.
    + unfold resultShape. simpl. eauto.
    + right. simpl. repeat split. lia.
Qed.

Lemma resultShape_uniform (schema : ZodSchema) (r : ExtractionResult) :
  (∀ v out, parse schema v = Returns out → out ≠ VNull) →
  resultShape schema r →
  (structuredResult r ≠ VNull ↔ success r = true).
Proof.
  intros Hnonnull. unfold resultShape.
  destruct (success r).
  - intros [_ [v Hv]]. split; [done|]. intros _. by eapply Hnonnull.
  - intros [-> _]. split; [done|discriminate].
Qed.

(** C7 (as the code has it) — executeModel, chunkAndMerge (for a positive
    chunk size) and analyzeText (for a non-empty text) always return a
    record with success, modelUsed and structuredResult.  A failure carries
    a [null] structuredResult and an error message; a success carries no
    error and the value [schema.parse] returned, so structuredResult is
    non-null exactly on success whenever the schema never parses to [null].
    executeModel and chunkAndMerge set isChunked; the only record without
    isChunked is the exhaustion record of the small-text cascade. *)
Theorem extraction_result_shape (AI : Backend) (maxSmallContextChars : nat)
    (Hermes2Pro Llama3_3 Llama4Scout MistralSmall3_1 : string)
    (schema : ZodSchema) (modelName textPayload : string) (isChunk : bool)
    (h : History) :
  (∃ r h', executeModel AI modelName textPayload schema isChunk h = Some (Returns r, h') ∧
           resultShape schema r ∧ isChunked r = Some isChunk) ∧
  (0 < maxSmallContextChars →
   ∃ r h', chunkAndMerge AI maxSmallContextChars modelName textPayload schema h
             = Some (Returns r, h') ∧
           resultShape schema r ∧ isChunked r = Some true) ∧
  (0 < maxSmallContextChars → textPayload ≠ "" →
   ∃ r h', analyzeText AI maxSmallContextChars Hermes2Pro Llama3_3 Llama4Scout
             MistralSmall3_1 schema textPayload h = Some (Returns r, h') ∧
           resultShape schema r ∧
           (is_Some (isChunked r) ∨
            (success r = false ∧ modelUsed r = Llama3_3 ∧
             String.length textPayload ≤ maxSmallContextChars))) ∧
  ((∀ v out, parse schema v = Returns out → out ≠ VNull) →
   ∀ r, resultShape schema r → (structuredResult r ≠ VNull ↔ success r = true)).
Proof.
  split; [|split; [|split]].
  - destruct (attempt_shape AI modelName textPayload schema isChunk h)
      as (r & Hr & Hshape & Hchunked).
    destruct (executeModel_returns AI modelName textPayload schema isChunk h)
      as (r0 & Hexec & _).
    rewrite Hexec in Hr. injection Hr as ->. eauto.
  - apply chunkAndMerge_shape.
  - apply analyzeText_shape.
  - intros Hnonnull r. by apply resultShape_uniform.
Qed.

Lemma extraction_result_shape_witness :
  (∃ r h', chunkAndMerge Examples.silentBackend 6 "llama-4-scout" "open plan kitchen"
             Examples.nameTagsSchema [] = Some (Returns r, h') ∧
           resultShape Examples.nameTagsSchema r ∧ isChunked r = Some true) ∧
  (∃ r h', analyzeText Examples.silentBackend 100 "hermes-2-pro" "llama-3.3"
             "llama-4-scout" "mistral-small-3.1" Examples.nameTagsSchema "Add a sofa" []
             = Some (Returns r, h') ∧
           resultShape Examples.nameTagsSchema r ∧
           (is_Some (isChunked r) ∨
            (success r = false ∧ modelUsed r = "llama-3.3" ∧
             String.length "Add a sofa" ≤ 100))).
Proof.
  destruct (extraction_result_shape Examples.silentBackend 6 "hermes-2-pro" "llama-3.3"
              "llama-4-scout" "mistral-small-3.1" Examples.nameTagsSchema
              "llama-4-scout" "open plan kitchen" true []) as (_ & Hchunk & _).
  destruct (extraction_result_shape Examples.silentBackend 100 "hermes-2-pro" "llama-3.3"
              "llama-4-scout" "mistral-small-3.1" Examples.nameTagsSchema
              "llama-4-scout" "Add a sofa" false []) as (_ & _ & Hanalyze & _).
  split.
  - apply Hchunk. lia.
  - apply Hanalyze; [lia|done].
Defined.

(** C7, where the code differs: the exhaustion record of analyzeText has no
    isChunked field, and a schema that parses to [null] gives a success
    with a [null] structuredResult. *)
Lemma extraction_result_not_uniform :
  (∃ r, returned (analyzeText Examples.silentBackend 100 "hermes-2-pro" "llama-3.3"
                    "llama-4-scout" "mistral-small-3.1" Examples.nameTagsSchema
                    "Add a sofa" []) = Some r ∧
        isChunked r = None ∧ ¬ uniformShape r) ∧
  (∃ r, returned (executeModel (Examples.onlyModel "hermes-2-pro" (VObject ∅))
                    "hermes-2-pro" "Add a sofa" Examples.nullingSchema false [])
          = Some r ∧
        success r = true ∧ structuredResult r = VNull ∧ ¬ uniformShape r).
Proof.
  split.
  - eexists. split; [reflexivity|]. split; [reflexivity|].
    intros [[b Hb] _]. discriminate.
  - eexists. split; [reflexivity|]. split; [reflexivity|]. split; [reflexivity|].
    intros [_ [_ Hnonnull]]. by apply Hnonnull.
Qed.

(** ** pollBatchAnalysisStatus *)







(** The batch of three, computed: the second item alone is demoted, with
    the validation error in [error] and in [result.response.error]; the
    status stays ["completed"]. *)
Example pollBatchAnalysisStatus_batch_of_three :
  returned (pollBatchAnalysisStatus (Examples.constantBackend Examples.batchOfThree)
              "llama-3.3" "req-1" Examples.nameTagsSchema [])
    = Some (VObject {[
        "status" := VString "completed";
        "responses" := VArray [
          Examples.batchItem (VObject {[ "name" := VString "hall"; "tags" := VArray [] ]});
          VObject {[
            "success" := VBool false;
            "error" := VString "Schema validation failed: [invalid_type at name]";
            "result" := VObject {[ "response" := VObject {[
               "error" := VString "Schema validation failed: [invalid_type at name]" ]} ]} ]};
          Examples.batchItem
            (VObject {[ "name" := VString "attic"; "tags" := VArray [VString "roof"] ]})
        ] ]}).
Proof. vm_compute. reflexivity. Qed.

(** C9, where the code differs: above the threshold there is no exhaustion
    record.  When Llama4Scout and MistralSmall3_1 both fail on the whole
    text, analyzeText returns what chunkAndMerge returns: a chunk failure
    that names Llama4Scout only, or even a success when the chunks go
    through. *)
Lemma analyzeText_large_not_exhaustion :
  (¬ ∃ lastError,
     returned (analyzeText Examples.silentBackend 6 "hermes-2-pro" "llama-3.3"
                 "llama-4-scout" "mistral-small-3.1" Examples.nameTagsSchema
                 "open plan kitchen" [])
       = Some {| success := false;
                 modelUsed := "llama-3.3";
                 structuredResult := VNull;
                 error := Some ("All models (hermes-2-pro, mistral-small-3.1, llama-4-scout, llama-3.3) failed to generate a valid structured response. Last error: "
                                +:+ lastError);
                 isChunked := None |}) ∧
  returned (analyzeText Examples.silentBackend 6 "hermes-2-pro" "llama-3.3"
              "llama-4-scout" "mistral-small-3.1" Examples.nameTagsSchema
              "open plan kitchen" [])
    = Some {| success := false;
              modelUsed := "llama-4-scout";
              structuredResult := VNull;
              error := Some "Chunking failure on chunk 1/3: Model llama-4-scout failed: Model llama-4-scout returned an empty or invalid response.";
              isChunked := Some true |} ∧
  invoked <$> historyAfter
      (analyzeText Examples.silentBackend 6 "hermes-2-pro" "llama-3.3"
         "llama-4-scout" "mistral-small-3.1" Examples.nameTagsSchema
         "open plan kitchen" [])
    = Some ["llama-4-scout"; "mistral-small-3.1"; "llama-4-scout"] ∧
  (success <$> returned
      (executeModel (Examples.refusingFirst 2 (VObject {[ "name" := VString "plan" ]}))
         "llama-4-scout" "open plan kitchen" Examples.nameTagsSchema false [])
    = Some false ∧
   success <$> returned
      (executeModel (Examples.refusingFirst 2 (VObject {[ "name" := VString "plan" ]}))
         "mistral-small-3.1" "open plan kitchen" Examples.nameTagsSchema false
         (attemptCalls "llama-4-scout" "open plan kitchen" Examples.nameTagsSchema))
    = Some false ∧
   returned (analyzeText (Examples.refusingFirst 2 (VObject {[ "name" := VString "plan" ]}))
               6 "hermes-2-pro" "llama-3.3" "llama-4-scout" "mistral-small-3.1"
               Examples.nameTagsSchema "open plan kitchen" [])
    = Some {| success := true;
              modelUsed := "llama-4-scout";
              structuredResult :=
                VObject {[ "name" := VString "plan"; "tags" := VArray [] ]};
              error := None;
              isChunked := Some true |}).
Proof.
  split; [|repeat split; vm_compute; reflexivity].
  intros [lastError Hsame].
  assert (Hmodel : modelUsed <$> returned
            (analyzeText Examples.silentBackend 6 "hermes-2-pro" "llama-3.3"
               "llama-4-scout" "mistral-small-3.1" Examples.nameTagsSchema
               "open plan kitchen" []) = Some "llama-4-scout")
    by (vm_compute; reflexivity).
  rewrite Hsame in Hmodel. discriminate.
Qed.

(** * Further properties of the tool *)

(** ** Repair: what synthesis guarantees *)



(** ** Merge: what the fold keeps *)



Lemma foldl_mergeChunk_arrays (key : string) (results : list Value)
    (arrays : list (list Value)) :
  Forall2 (λ currentResult array, ownProps currentResult !! key = Some (VArray array))
    results arrays →
  ∀ acc existing, acc !! key = Some (VArray existing) →
  foldl mergeChunk acc results !! key = Some (VArray (existing ++ concat arrays)).
Proof.
  induction 1 as [|currentResult array results arrays Hcur _ IH]; intros acc existing Hacc.
  - simpl. by rewrite app_nil_r.
  - simpl. erewrite IH.
    + by rewrite app_assoc.
    + by rewrite mergeChunk_lookup, Hcur, Hacc.
Qed.

(** X3 — A field that is an array in every chunk result comes out as the
    concatenation of those arrays in chunk order, duplicates included. *)
Theorem mergeAll_concatenates (key : string) (results : list Value)
    (arrays : list (list Value)) :
  results ≠ [] →
  Forall2 (λ currentResult array, ownProps currentResult !! key = Some (VArray array))
    results arrays →
  mergeAll results !! key = Some (VArray (concat arrays)).
Proof.
  intros Hne Hall. destruct Hall as [|currentResult array results arrays Hcur Hall]; [done|].
  unfold mergeAll. simpl.
  apply (foldl_mergeChunk_arrays key results arrays Hall).
  by rewrite mergeChunk_lookup, Hcur, lookup_empty.
Qed.

Lemma mergeAll_concatenates_witness :
  mergeAll [VObject {[ "tags" := VArray [VString "a"; VString "b"] ]};
            VObject {[ "tags" := VArray [] ]};
            VObject {[ "tags" := VArray [VString "b"] ]}] !! "tags"
    = Some (VArray [VString "a"; VString "b"; VString "b"]).
Proof.
  apply (mergeAll_concatenates "tags" _
           [[VString "a"; VString "b"]; []; [VString "b"]]); [done|].
  repeat constructor.
Defined.

(** ** Backend calls: how many, and to whom *)

Lemma attemptCalls_bound (modelName textPayload : string) (schema : ZodSchema) :
  length (attemptCalls modelName textPayload schema) ≤ 1 ∧
  Forall (λ call : Call, call.1 = modelName) (attemptCalls modelName textPayload schema).
Proof.
  unfold attemptCalls. destruct (toJsonSchema schema) as [jsonSchema|e].
  - destruct (usableWireSchema (stripMeta jsonSchema)); simpl; split;
      repeat constructor.
  - simpl. split; repeat constructor.
Qed.

Lemma chunkCalls_bound (modelName : string) (schema : ZodSchema) (chunks : list string) :
  length (chunkCalls modelName schema chunks) ≤ length chunks ∧
  Forall (λ call : Call, call.1 = modelName) (chunkCalls modelName schema chunks).
Proof.
  induction chunks as [|chunk rest [IHlen IHall]]; [split; [done|constructor]|].
  unfold chunkCalls in *. simpl.
  destruct (attemptCalls_bound modelName chunk schema) as [Hlen Hall].
  split.
  - rewrite length_app. lia.
  - apply Forall_app. by split.
Qed.

Lemma chunkAndMerge_history (AI : Backend) (maxSmallContextChars : nat)
    (modelName fullText : string) (schema : ZodSchema) (h : History)
    (textChunks : list string) :
  splitText fullText maxSmallContextChars = Some textChunks →
  ∃ r k, k ≤ length textChunks ∧
    chunkAndMerge AI maxSmallContextChars modelName fullText schema h =
      Some (Returns r, h ++ chunkCalls modelName schema (take k textChunks)).
Proof.
  intros Hsplit.
  destruct (first_unusable (attempts AI modelName schema textChunks h))
    as [Hall|(k & bad & Hk & Hbad & Hbefore)].
  - rewrite (chunkAndMerge_complete _ _ _ _ _ _ _ Hsplit Hall).
    eexists _, (length textChunks). split; [done|]. by rewrite firstn_all.
  - unfold chunkAndMerge. unfold mbind at 1, M_bind. unfold liftLoop.
    rewrite Hsplit. unfold mbind at 1, M_bind.
    rewrite (chunkLoop_abort AI modelName schema (length textChunks) textChunks
               0 _ h k bad Hk Hbad Hbefore).
    apply lookup_lt_Some in Hk.
    assert (length (attempts AI modelName schema textChunks h) ≤ length textChunks).
    { clear. revert h. induction textChunks as [|c l IH]; intros h; [done|].
      destruct (attempts_cons AI modelName schema c l h) as (r & _ & _ & ->).
      simpl. specialize (IH (h ++ attemptCalls modelName c schema)). lia. }
    eexists _, (S k). split; [lia|done].
Qed.

Lemma chunkAndMerge_bounded (AI : Backend) (maxSmallContextChars : nat)
    (modelName fullText : string) (schema : ZodSchema) (h : History) :
  0 < maxSmallContextChars →
  ∃ r calls,
    chunkAndMerge AI maxSmallContextChars modelName fullText schema h
      = Some (Returns r, h ++ calls) ∧
    length calls ≤ (String.length fullText + maxSmallContextChars - 1)
                     / maxSmallContextChars ∧
    Forall (λ call : Call, call.1 = modelName) calls.
Proof.
  intros Hpos.
  destruct (splitLoop_spec fullText maxSmallContextChars Hpos (String.length fullText) 0 [])
    as (textChunks & Hsplit & Hlen & _); [lia|].
  rewrite Nat.sub_0_r in Hlen.
  destruct (chunkAndMerge_history AI maxSmallContextChars modelName fullText schema h
              textChunks Hsplit) as (r & k & Hk & Hout).
  exists r, (chunkCalls modelName schema (take k textChunks)). split; [done|].
  destruct (chunkCalls_bound modelName schema (take k textChunks)) as [Hbound Hmodel].
  split; [|done]. rewrite length_take in Hbound. simpl in Hlen. lia.
Qed.

(** X4 — chunkAndMerge always returns when the chunk size is positive; it calls
    the backend at most once per chunk, that is at most [ceil(L / C)] times,
    and only ever with the model it was given. *)
Theorem chunkAndMerge_calls (AI : Backend) (maxSmallContextChars : nat)
    (modelName fullText : string) (schema : ZodSchema) (h : History) :
  0 < maxSmallContextChars →
  ∃ r calls,
    chunkAndMerge AI maxSmallContextChars modelName fullText schema h
      = Some (Returns r, h ++ calls) ∧
    length calls ≤ (String.length fullText + maxSmallContextChars - 1)
                     / maxSmallContextChars ∧
    Forall (λ call : Call, call.1 = modelName) calls.
Proof. apply chunkAndMerge_bounded. Qed.

Lemma chunkAndMerge_calls_witness :
  ∃ r calls,
    chunkAndMerge Examples.silentBackend 6 "llama-4-scout" "open plan kitchen"
      Examples.nameTagsSchema [] = Some (Returns r, [] ++ calls) ∧
    length calls ≤ (String.length "open plan kitchen" + 6 - 1) / 6 ∧
    Forall (λ call : Call, call.1 = "llama-4-scout") calls.
Proof.
  apply (chunkAndMerge_calls Examples.silentBackend 6 "llama-4-scout" "open plan kitchen").
  lia.
Defined.

Lemma splitLoop_stuck (fullText : string) (i : nat) :
  i < String.length fullText →
  ∀ fuel textChunks, splitLoop fuel fullText 0 i textChunks = None.
Proof.
  intros Hi. induction fuel as [|fuel IH]; intros textChunks; simpl;
    destruct (decide (i < String.length fullText)); try done.
  rewrite Nat.add_0_r. apply IH.
Qed.

(** X5 — The two degenerate inputs of chunkAndMerge.  On the empty text there is
    no chunk: the backend is not called and the result is the validation of
    the empty object.  With a chunk size of 0 and a non-empty text the split
    loop never advances: no number of iterations finishes it, and the method
    does not return. *)
Theorem chunkAndMerge_degenerate (AI : Backend) (modelName : string)
    (schema : ZodSchema) (h : History) :
  (∀ maxSmallContextChars,
     chunkAndMerge AI maxSmallContextChars modelName "" schema h =
       Some (Returns (validatedMerge modelName schema ∅), h)) ∧
  (∀ fullText, fullText ≠ "" →
     (∀ fuel, splitLoop fuel fullText 0 0 [] = None) ∧
     chunkAndMerge AI 0 modelName fullText schema h = None).
Proof.
  split.
  - intros C.
    rewrite (chunkAndMerge_complete AI C modelName "" schema h [] eq_refl);
      [|constructor].
    unfold chunkCalls. simpl. by rewrite app_nil_r.
  - intros fullText Hne.
    assert (Hlen : 0 < String.length fullText) by (destruct fullText; [done|simpl; lia]).
    split.
    + intros fuel. by apply splitLoop_stuck.
    + unfold chunkAndMerge, splitText. unfold mbind at 1, M_bind. unfold liftLoop.
      by rewrite splitLoop_stuck.
Qed.

Lemma chunkAndMerge_degenerate_witness :
  chunkAndMerge Examples.silentBackend 0 "llama-4-scout" "open plan"
    Examples.nameTagsSchema [] = None.
Proof.
  destruct (chunkAndMerge_degenerate Examples.silentBackend "llama-4-scout"
              Examples.nameTagsSchema []) as [_ Hstuck].
  apply (Hstuck "open plan"). discriminate.
Defined.

Lemma analyzeText_calls_aux (AI : Backend) (maxSmallContextChars : nat)
    (Hermes2Pro Llama3_3 Llama4Scout MistralSmall3_1 : string)
    (schema : ZodSchema) (textPayload : string) (h : History) :
  0 < maxSmallContextChars → textPayload ≠ "" →
  ∃ r calls,
    analyzeText AI maxSmallContextChars Hermes2Pro Llama3_3 Llama4Scout MistralSmall3_1
      schema textPayload h = Some (Returns r, h ++ calls) ∧
    if decide (maxSmallContextChars < String.length textPayload)
    then
      length calls ≤ 2 + (String.length textPayload + maxSmallContextChars - 1)
                           / maxSmallContextChars ∧
      Forall (λ call : Call, call.1 = Llama4Scout ∨ call.1 = MistralSmall3_1) calls
    else
      length calls ≤ 4 ∧
      Forall (λ call : Call, call.1 ∈ [Hermes2Pro; MistralSmall3_1; Llama4Scout; Llama3_3])
        calls.
Proof.
  intros Hpos Hne.
  set (calls m := attemptCalls m textPayload schema).
  assert (Hb : ∀ m, length (calls m) ≤ 1 ∧ Forall (λ call : Call, call.1 = m) (calls m))
    by (intros m; apply attemptCalls_bound).
  destruct (Hb Hermes2Pro) as [HlH HmH], (Hb MistralSmall3_1) as [HlM HmM],
    (Hb Llama4Scout) as [HlS HmS], (Hb Llama3_3) as [HlL HmL].
  destruct (decide (maxSmallContextChars < String.length textPayload)) as [Hlarge|Hsmall].
  - destruct (attempt_shape AI Llama4Scout textPayload schema false h) as (r1 & H1 & _).
    destruct (attempt_shape AI MistralSmall3_1 textPayload schema false
                (h ++ calls Llama4Scout)) as (r2 & H2 & _).
    rewrite (analyzeText_large AI maxSmallContextChars Hermes2Pro Llama3_3 Llama4Scout
               MistralSmall3_1 schema textPayload h Hne r1 r2 Hlarge H1 H2).
    fold (calls Llama4Scout) (calls MistralSmall3_1).
    destruct (success r1).
    { exists r1, (calls Llama4Scout). split; [done|]. split; [lia|].
      eapply Forall_impl; [exact HmS|]. by left. }
    destruct (success r2).
    { exists r2, (calls Llama4Scout ++ calls MistralSmall3_1). split; [done|].
      rewrite length_app. split; [lia|]. apply Forall_app. split.
      - eapply Forall_impl; [exact HmS|]. by left.
      - eapply Forall_impl; [exact HmM|]. by right. }
    destruct (chunkAndMerge_bounded AI maxSmallContextChars Llama4Scout textPayload schema
                (h ++ calls Llama4Scout ++ calls MistralSmall3_1) Hpos)
      as (r & chunked & -> & Hlen & Hmodel).
    exists r, (calls Llama4Scout ++ calls MistralSmall3_1 ++ chunked).
    split; [by rewrite <- !app_assoc|].
    rewrite !length_app. split; [lia|]. rewrite !Forall_app. repeat split.
    + eapply Forall_impl; [exact HmS|]. by left.
    + eapply Forall_impl; [exact HmM|]. by right.
    + eapply Forall_impl; [exact Hmodel|]. by left.
  - destruct (attempt_shape AI Hermes2Pro textPayload schema false h) as (r1 & H1 & _).
    destruct (attempt_shape AI MistralSmall3_1 textPayload schema false
                (h ++ calls Hermes2Pro)) as (r2 & H2 & _).
    destruct (attempt_shape AI Llama4Scout textPayload schema false
                (h ++ calls Hermes2Pro ++ calls MistralSmall3_1)) as (r3 & H3 & _).
    destruct (attempt_shape AI Llama3_3 textPayload schema false
                (h ++ calls Hermes2Pro ++ calls MistralSmall3_1 ++ calls Llama4Scout))
      as (r4 & H4 & _).
    rewrite (analyzeText_small AI maxSmallContextChars Hermes2Pro Llama3_3 Llama4Scout
               MistralSmall3_1 schema textPayload h Hne r1 r2 r3 r4
               ltac:(lia) H1 H2 H3 H4).
    fold (calls Hermes2Pro) (calls MistralSmall3_1) (calls Llama4Scout) (calls Llama3_3).
    assert (HinH : Forall (λ call : Call,
                     call.1 ∈ [Hermes2Pro; MistralSmall3_1; Llama4Scout; Llama3_3])
                     (calls Hermes2Pro))
      by (eapply Forall_impl; [exact HmH|]; intros ? ->;
          repeat first [apply list_elem_of_here | apply list_elem_of_further]).
    assert (HinM : Forall (λ call : Call,
                     call.1 ∈ [Hermes2Pro; MistralSmall3_1; Llama4Scout; Llama3_3])
                     (calls MistralSmall3_1))
      by (eapply Forall_impl; [exact HmM|]; intros ? ->;
          repeat first [apply list_elem_of_here | apply list_elem_of_further]).
    assert (HinS : Forall (λ call : Call,
                     call.1 ∈ [Hermes2Pro; MistralSmall3_1; Llama4Scout; Llama3_3])
                     (calls Llama4Scout))
      by (eapply Forall_impl; [exact HmS|]; intros ? ->;
          repeat first [apply list_elem_of_here | apply list_elem_of_further]).
    assert (HinL : Forall (λ call : Call,
                     call.1 ∈ [Hermes2Pro; MistralSmall3_1; Llama4Scout; Llama3_3])
                     (calls Llama3_3))
      by (eapply Forall_impl; [exact HmL|]; intros ? ->;
          repeat first [apply list_elem_of_here | apply list_elem_of_further]).
    destruct (success r1);
      [eexists _, _; split; [done|]; split; [lia|done]|].
    destruct (success r2);
      [eexists _, _; split; [done|]; rewrite !length_app, !Forall_app;
       split; [lia|done]|].
    destruct (success r3);
      [eexists _, _; split; [done|]; rewrite !length_app, !Forall_app;
       split; [lia|done]|].
    destruct (success r4);
      eexists _, _; (split; [done|]); rewrite !length_app, !Forall_app;
      (split; [lia|done]).
Qed.

(** X6 — analyzeText throws exactly on the empty text, and then without calling
    the backend.  On any other text (the chunk size being positive) it
    returns a record; at or below the threshold it has made at most four
    calls, all to the four backends of the roster; above it, at most two
    plus one per chunk, and only to Llama4Scout and MistralSmall3_1
    (Hermes2Pro and Llama3_3 are never tried on a large text). *)
Theorem analyzeText_calls (AI : Backend) (maxSmallContextChars : nat)
    (Hermes2Pro Llama3_3 Llama4Scout MistralSmall3_1 : string)
    (schema : ZodSchema) (h : History) :
  analyzeText AI maxSmallContextChars Hermes2Pro Llama3_3 Llama4Scout MistralSmall3_1
      schema "" h
    = Some (Throws (Error "Input textPayload cannot be empty for analyzeText."), h) ∧
  ∀ textPayload, 0 < maxSmallContextChars → textPayload ≠ "" →
    ∃ r calls,
      analyzeText AI maxSmallContextChars Hermes2Pro Llama3_3 Llama4Scout MistralSmall3_1
        schema textPayload h = Some (Returns r, h ++ calls) ∧
      if decide (maxSmallContextChars < String.length textPayload)
      then
        length calls ≤ 2 + (String.length textPayload + maxSmallContextChars - 1)
                             / maxSmallContextChars ∧
        Forall (λ call : Call, call.1 = Llama4Scout ∨ call.1 = MistralSmall3_1) calls
      else
        length calls ≤ 4 ∧
        Forall (λ call : Call,
                  call.1 ∈ [Hermes2Pro; MistralSmall3_1; Llama4Scout; Llama3_3]) calls.
Proof.
  split; [reflexivity|].
  intros textPayload Hpos Hne. by apply analyzeText_calls_aux.
Qed.

Lemma analyzeText_calls_witness :
  ∃ r calls,
    analyzeText Examples.silentBackend 6 "hermes-2-pro" "llama-3.3" "llama-4-scout"
      "mistral-small-3.1" Examples.nameTagsSchema "open plan kitchen" []
      = Some (Returns r, [] ++ calls) ∧
    length calls ≤ 2 + (String.length "open plan kitchen" + 6 - 1) / 6 ∧
    Forall (λ call : Call, call.1 = "llama-4-scout" ∨ call.1 = "mistral-small-3.1") calls.
Proof.
  destruct (analyzeText_calls Examples.silentBackend 6 "hermes-2-pro" "llama-3.3"
              "llama-4-scout" "mistral-small-3.1" Examples.nameTagsSchema [])
    as [_ Hcalls].
  destruct (Hcalls "open plan kitchen") as (r & calls & Hout & Hbound); [lia|done|].
  exists r, calls. split; [exact Hout|]. exact Hbound.
Defined.

(** X7 — analyzeTextWithModel throws on the empty text without calling the
    backend; on any other text it returns a record for the model it was
    given, not marked as chunked, after at most one call, made to that
    model. *)
Theorem analyzeTextWithModel_single_attempt (AI : Backend) (schema : ZodSchema)
    (modelName : string) (h : History) :
  analyzeTextWithModel AI schema "" modelName h
    = Some (Throws (Error "Input textPayload cannot be empty for analyzeTextWithModel."), h) ∧
  ∀ textPayload, textPayload ≠ "" →
    ∃ r calls,
      analyzeTextWithModel AI schema textPayload modelName h = Some (Returns r, h ++ calls) ∧
      modelUsed r = modelName ∧ isChunked r = Some false ∧
      length calls ≤ 1 ∧ Forall (λ call : Call, call.1 = modelName) calls.
Proof.
  split; [reflexivity|].
  intros textPayload Hne. unfold analyzeTextWithModel.
  destruct (String.eqb_spec textPayload ""); [done|].
  destruct (executeModel_returns AI modelName textPayload schema false h)
    as (r & Hexec & Hmodel & Hchunked & _).
  destruct (attemptCalls_bound modelName textPayload schema) as [Hlen Hall].
  exists r, (attemptCalls modelName textPayload schema). by repeat split.
Qed.

Lemma analyzeTextWithModel_single_attempt_witness :
  ∃ r calls,
    analyzeTextWithModel Examples.silentBackend Examples.nameTagsSchema "Add a sofa"
      "llama-3.3" [] = Some (Returns r, [] ++ calls) ∧
    modelUsed r = "llama-3.3" ∧ isChunked r = Some false ∧
    length calls ≤ 1 ∧ Forall (λ call : Call, call.1 = "llama-3.3") calls.
Proof.
  destruct (analyzeTextWithModel_single_attempt Examples.silentBackend
              Examples.nameTagsSchema "llama-3.3" []) as [_ Hattempt].
  apply (Hattempt "Add a sofa"). discriminate.
Defined.

(** ** requestBatchAnalysis *)

Lemma existsb_empty_text (textPayloads : list string) :
  existsb (λ text, String.eqb text "") textPayloads = true ↔ "" ∈ textPayloads.
Proof.
  rewrite existsb_exists. split.
  - intros (text & Hin & Heq). apply String.eqb_eq in Heq as ->.
    by apply list_elem_of_In.
  - intros Hin. exists "". split; [by apply list_elem_of_In|done].
Qed.

(** X8 — requestBatchAnalysis refuses a bad submission by throwing before the
    backend is called: no text, an empty text, references whose number
    differs from the number of texts, a [zodToJsonSchema] that throws, or a
    wire schema that fails the guard (which here, unlike in executeModel,
    reaches the caller as an exception). *)
Theorem requestBatchAnalysis_rejects_before_call (AI : Backend) (modelName : string)
    (textPayloads : list string) (schema : ZodSchema)
    (externalReferences : option (list string)) (h : History) :
  textPayloads = [] ∨ "" ∈ textPayloads ∨
  (∃ references, externalReferences = Some references ∧
                 length references ≠ length textPayloads) ∨
  (∃ e, toJsonSchema schema = Throws e) ∨
  (∃ jsonSchema, toJsonSchema schema = Returns jsonSchema ∧
                 usableWireSchema (stripMeta jsonSchema) = false) →
  ∃ e, requestBatchAnalysis AI modelName textPayloads schema externalReferences h
         = Some (Throws e, h).
Proof.
  intros Hbad. unfold requestBatchAnalysis.
  case_bool_decide as Hlen; [by eexists|].
  destruct (existsb _ textPayloads) eqn:Hempty; [by eexists|].
  destruct (match externalReferences with
            | Some references => negb (bool_decide (length references = length textPayloads))
            | None => false
            end) eqn:Hrefs; [by eexists|].
  destruct Hbad as [->|[Hin|[(references & -> & Hne)|[[e He]|(jsonSchema & Hjs & Hunusable)]]]].
  - done.
  - apply existsb_empty_text in Hin. congruence.
  - rewrite bool_decide_false in Hrefs by done. discriminate.
  - unfold_M. rewrite He. by eexists.
  - unfold_M. rewrite Hjs, Hunusable. by eexists.
Qed.

Lemma requestBatchAnalysis_rejects_before_call_witness :
  ∃ e, requestBatchAnalysis Examples.silentBackend "llama-3.3"
         ["hall"; "attic"] Examples.aiResponseSchema (Some ["a"; "b"]) []
       = Some (Throws e, []).
Proof.
  apply requestBatchAnalysis_rejects_before_call.
  right. right. right. right. eexists. split; reflexivity.
Defined.



(** ** executeCommandSequence *)

Section CommandSequence.

Context (JSON_stringify : Value → string) (sessionStub : Backend).

(** One turn of the loop on an entry that is not [null] or [undefined]:
    the command is posted, and what is pushed echoes the entry's command and
    params; the loop goes on exactly when the pushed result reports
    success. *)
Lemma commandLoop_step (entry : Value) (rest : list Value) (results : list Value)
    (h : History) :
  nullish entry = false →
  ∃ pushed,
    getOpt pushed "command" = getOpt entry "command" ∧
    getOpt pushed "params" = getOpt entry "params" ∧
    commandLoop JSON_stringify sessionStub (entry :: rest) results h =
      if succeeded pushed
      then commandLoop JSON_stringify sessionStub rest (results ++ [pushed])
             (h ++ [postOf JSON_stringify entry])
      else Some (Returns (results ++ [pushed]), h ++ [postOf JSON_stringify entry]).
Proof.
  intros Hentry. cbn [commandLoop]. rewrite Hentry.
  unfold mbind at 1, M_bind. unfold tryCatch, postCommand.
  unfold mbind at 1, M_bind. unfold run. fold (postOf JSON_stringify entry).
  destruct (sessionStub h _ _) as [result|e].
  - destruct (nullish result) eqn:Hresult.
    + exists (VObject {[ "command" := getOpt entry "command";
                         "params" := getOpt entry "params";
                         "success" := VBool false;
                         "error" := VString (exn_message (cannotRead result "success")) ]}).
      split; [reflexivity|]. split; [reflexivity|].
      replace (succeeded _) with false by reflexivity. reflexivity.
    + exists (VObject {[ "command" := getOpt entry "command";
                         "params" := getOpt entry "params";
                         "success" := getOpt result "success";
                         "result" := result ]}).
      split; [reflexivity|]. split; [reflexivity|].
      replace (succeeded _) with (truthy (getOpt result "success")) by reflexivity.
      cbn. by destruct (truthy (getOpt result "success")).
  - exists (VObject {[ "command" := getOpt entry "command";
                       "params" := getOpt entry "params";
                       "success" := VBool false;
                       "error" := VString (exn_message e) ]}).
    split; [reflexivity|]. split; [reflexivity|].
    replace (succeeded _) with false by reflexivity. reflexivity.
Qed.

Lemma commandLoop_spec (commands : list Value) : ∀ results h,
  Forall (λ entry, nullish entry = false) commands →
  ∃ new,
    commandLoop JSON_stringify sessionStub commands results h =
      Some (Returns (results ++ new),
            h ++ (postOf JSON_stringify <$> take (length new) commands)) ∧
    length new ≤ length commands ∧
    (∀ i r, new !! i = Some r → S i < length new → succeeded r = true) ∧
    (length new < length commands → ∃ r, last new = Some r ∧ succeeded r = false) ∧
    (∀ i r entry, new !! i = Some r → commands !! i = Some entry →
       getOpt r "command" = getOpt entry "command" ∧
       getOpt r "params" = getOpt entry "params").
Proof.
  induction commands as [|entry rest IH]; intros results h Hall.
  - exists []. simpl. rewrite !app_nil_r. repeat split; try done; lia.
  - apply Forall_cons in Hall as [Hentry Hall].
    destruct (commandLoop_step entry rest results h Hentry)
      as (pushed & Hcommand & Hparams & ->).
    destruct (succeeded pushed) eqn:Hpushed.
    + destruct (IH (results ++ [pushed]) (h ++ [postOf JSON_stringify entry]) Hall)
        as (new & -> & Hlen & Hinit & Hlast & Hecho).
      exists (pushed :: new). rewrite <- !app_assoc. simpl.
      split; [done|]. split; [lia|]. split; [|split].
      * intros [|i] r Hr Hi; simpl in Hr; [congruence|]. apply (Hinit i r Hr). lia.
      * intros Hshort. destruct Hlast as (r & Hr & Hfailed); [lia|].
        exists r. split; [|done]. destruct new; [done|]. done.
      * intros [|i] r e Hr He; simpl in Hr, He; [by simplify_eq|]. by eapply Hecho.
    + exists [pushed]. simpl. split; [done|]. split; [lia|]. split; [|split].
      * intros i r Hr Hi. lia.
      * intros _. by exists pushed.
      * intros [|i] r e Hr He; simpl in Hr, He; [by simplify_eq|done].
Qed.

End CommandSequence.

(** X10 — executeCommandSequence on command entries that are objects never
    throws, whatever the session does: a failed fetch or an unreadable
    answer becomes a failed result.  It posts the commands in order, one
    call per result, and stops at the first result that does not report
    success: every result before the last succeeded, commands after a
    failure are never posted, and when fewer results than commands come back
    the last one is a failure.  Each result echoes the command and params of
    its entry. *)
Theorem executeCommandSequence_stops_at_first_failure
    (JSON_stringify : Value → string) (sessionStub : Backend)
    (commands : list Value) (h : History) :
  Forall (λ entry, nullish entry = false) commands →
  ∃ results,
    executeCommandSequence JSON_stringify sessionStub commands h =
      Some (Returns results,
            h ++ (postOf JSON_stringify <$> take (length results) commands)) ∧
    length results ≤ length commands ∧
    (∀ i r, results !! i = Some r → S i < length results → succeeded r = true) ∧
    (length results < length commands →
       ∃ r, last results = Some r ∧ succeeded r = false) ∧
    (∀ i r entry, results !! i = Some r → commands !! i = Some entry →
       getOpt r "command" = getOpt entry "command" ∧
       getOpt r "params" = getOpt entry "params").
Proof.
  intros Hall. unfold executeCommandSequence.
  destruct (commandLoop_spec JSON_stringify sessionStub commands [] h Hall)
    as (new & Hloop & Hrest).
  exists new. split; [exact Hloop|exact Hrest].
Qed.

Lemma executeCommandSequence_stops_at_first_failure_witness :
  ∃ results,
    executeCommandSequence Instances.stringifyCommand (Instances.sessionFailingOn 1)
      [VObject {[ "command" := VString "MODE_2D" ]};
       VObject {[ "command" := VString "ADD_WALL" ]};
       VObject {[ "command" := VString "MODE_3D" ]}] []
    = Some (Returns results,
            [] ++ (postOf Instances.stringifyCommand <$>
                     take (length results)
                       [VObject {[ "command" := VString "MODE_2D" ]};
                        VObject {[ "command" := VString "ADD_WALL" ]};
                        VObject {[ "command" := VString "MODE_3D" ]}])) ∧
    length results ≤ 3.
Proof.
  destruct (executeCommandSequence_stops_at_first_failure Instances.stringifyCommand
              (Instances.sessionFailingOn 1)
              [VObject {[ "command" := VString "MODE_2D" ]};
               VObject {[ "command" := VString "ADD_WALL" ]};
               VObject {[ "command" := VString "MODE_3D" ]}] [])
    as (results & Hout & Hlen & _).
  - repeat constructor.
  - exists results. split; [exact Hout|exact Hlen].
Defined.

(** The three commands, computed: the second is refused, so two results
    come back and the third command is never posted. *)
Example executeCommandSequence_three_commands :
  (length <$> returned
     (executeCommandSequence Instances.stringifyCommand (Instances.sessionFailingOn 1)
        [VObject {[ "command" := VString "MODE_2D" ]};
         VObject {[ "command" := VString "ADD_WALL" ]};
         VObject {[ "command" := VString "MODE_3D" ]}] [])) = Some 2 ∧
  (length <$> historyAfter
     (executeCommandSequence Instances.stringifyCommand (Instances.sessionFailingOn 1)
        [VObject {[ "command" := VString "MODE_2D" ]};
         VObject {[ "command" := VString "ADD_WALL" ]};
         VObject {[ "command" := VString "MODE_3D" ]}] [])) = Some 2.
Proof. split; vm_compute; reflexivity. Qed.

Lemma commandLoop_nullish (JSON_stringify : Value → string) (sessionStub : Backend)
    (entry : Value) (after : list Value) (before : list Value) : ∀ results h,
  Forall (λ entry, nullish entry = false) before →
  nullish entry = true →
  (∃ e, commandLoop JSON_stringify sessionStub (before ++ entry :: after) results h =
          Some (Throws e, h ++ (postOf JSON_stringify <$> before))) ∨
  (∃ new,
     commandLoop JSON_stringify sessionStub (before ++ entry :: after) results h =
       Some (Returns (results ++ new),
             h ++ (postOf JSON_stringify <$> take (length new) before)) ∧
     0 < length new ≤ length before ∧
     ∃ r, last new = Some r ∧ succeeded r = false).
Proof.
  induction before as [|first before IH]; intros results h Hall Hentry.
  - left. simpl. rewrite Hentry, app_nil_r. by eexists.
  - apply Forall_cons in Hall as [Hfirst Hall]. rewrite <- app_comm_cons.
    destruct (commandLoop_step JSON_stringify sessionStub first
                (before ++ entry :: after) results h Hfirst)
      as (pushed & _ & _ & ->).
    destruct (succeeded pushed) eqn:Hpushed.
    + destruct (IH (results ++ [pushed]) (h ++ [postOf JSON_stringify first]) Hall Hentry)
        as [[e ->]|(new & -> & Hlen & r & Hr & Hfailed)].
      * left. exists e. by rewrite <- app_assoc.
      * right. exists (pushed :: new). rewrite <- !app_assoc. simpl.
        split; [done|]. split; [lia|]. exists r. split; [|done].
        destruct new; [simpl in Hlen; lia|done].
    + right. exists [pushed]. simpl. split; [done|]. split; [lia|]. by exists pushed.
Qed.

(** X11 — An entry of the command list that is [null] or [undefined] is never
    skipped: the destructuring in the loop head is outside the [try], so
    once every command before it has been posted with success the call
    throws, and the results gathered so far are lost.  The only way the call
    still returns is that an earlier command failed and ended the loop. *)
Theorem executeCommandSequence_nullish_entry (JSON_stringify : Value → string)
    (sessionStub : Backend) (before : list Value) (entry : Value) (after : list Value)
    (h : History) :
  Forall (λ entry, nullish entry = false) before →
  nullish entry = true →
  let outcome :=
    executeCommandSequence JSON_stringify sessionStub (before ++ entry :: after) h in
  (∃ e, outcome = Some (Throws e, h ++ (postOf JSON_stringify <$> before))) ∨
  (∃ results,
     outcome = Some (Returns results,
                     h ++ (postOf JSON_stringify <$> take (length results) before)) ∧
     0 < length results ≤ length before ∧
     ∃ r, last results = Some r ∧ succeeded r = false).
Proof.
  intros Hall Hentry outcome. subst outcome. unfold executeCommandSequence.
  destruct (commandLoop_nullish JSON_stringify sessionStub entry after before [] h
              Hall Hentry) as [Hthrown|(new & Hloop & Hrest)].
  - by left.
  - right. exists new. split; [exact Hloop|exact Hrest].
Qed.

Lemma executeCommandSequence_nullish_entry_witness :
  ∃ e, executeCommandSequence Instances.stringifyCommand (Instances.sessionFailingOn 5)
         ([VObject {[ "command" := VString "MODE_2D" ]}] ++ VNull :: []) []
       = Some (Throws e,
               [] ++ (postOf Instances.stringifyCommand <$>
                        [VObject {[ "command" := VString "MODE_2D" ]}])).
Proof.
  destruct (executeCommandSequence_nullish_entry Instances.stringifyCommand
              (Instances.sessionFailingOn 5)
              [VObject {[ "command" := VString "MODE_2D" ]}] VNull [] [])
    as [Hthrown|(results & Hout & _)].
  - repeat constructor.
  - reflexivity.
  - exact Hthrown.
  - vm_compute in Hout. discriminate.
Defined.

(** ** The rule-based fallback of the agent helper *)

Lemma find_first {A : Type} (f : A → bool) (l : list A) (x : A) :
  find f l = Some x →
  ∃ before after, l = before ++ x :: after ∧ f x = true ∧
                  Forall (λ y, f y = false) before.
Proof.
  induction l as [|y l IH]; [done|]. simpl. destruct (f y) eqn:Hy.
  - intros [= ->]. exists [], l. by repeat split.
  - intros Hfind. destruct (IH Hfind) as (before & after & -> & Hx & Hbefore).
    exists (y :: before), after. repeat split; [done|]. by constructor.
Qed.

(** X12 — What the fallback returns is always one of five commands, never
    LOAD_PROJECT, with a reasoning that starts with ["[Fallback]"]: a
    CLARIFY result carries a question and no params, every other result
    carries a params object and no question. *)
Theorem fallbackParsing_shape (parseInt : string → Z) (prompt : string) :
  ∃ command reasoning,
    getOpt (fallbackParsing parseInt prompt) "command" = VString command ∧
    command ∈ ["ADD_ITEM"; "ADD_WALL"; "MODE_3D"; "MODE_2D"; "CLARIFY"] ∧
    getOpt (fallbackParsing parseInt prompt) "reasoning" = VString reasoning ∧
    String.prefix "[Fallback]" reasoning = true ∧
    if String.eqb command "CLARIFY"
    then (∃ question,
            getOpt (fallbackParsing parseInt prompt) "question" = VString question) ∧
         getOpt (fallbackParsing parseInt prompt) "params" = VUndefined
    else (∃ params,
            getOpt (fallbackParsing parseInt prompt) "params" = VObject params) ∧
         getOpt (fallbackParsing parseInt prompt) "question" = VUndefined.
Proof.
  unfold fallbackParsing.
  destruct (find _ furnitureTypes) as [[keyword itemType]|].
  { eexists _, _. split; [reflexivity|]. split; [repeat constructor|].
    split; [reflexivity|]. split; [reflexivity|]. cbn. eauto. }
  repeat match goal with
  | |- context [if ?b then _ else _] =>
      destruct b;
      [eexists _, _; split; [reflexivity|]; split; [repeat constructor|];
       split; [reflexivity|]; split; [reflexivity|]; cbn; eauto|]
  end.
  eexists _, _. split; [reflexivity|]. split; [repeat constructor|].
  split; [reflexivity|]. split; [reflexivity|]. cbn. eauto.
Qed.

(** X13 — Furniture wins over everything else.  The fallback answers ADD_ITEM
    exactly when the lower-cased prompt contains one of the furniture
    keywords, whatever else the prompt says; the item type is then the one
    of the first keyword, in the order of the table, that the prompt
    contains (so a prompt with both a chair and a sofa adds a sofa), and the
    position is [null] or the pair of numbers read from the first
    [digits , digits] of the prompt. *)
Theorem fallbackParsing_furniture_first (parseInt : string → Z) (prompt : string) :
  let lowerPrompt := Text.toLowerCase prompt in
  let parsed := fallbackParsing parseInt prompt in
  (getOpt parsed "command" = VString "ADD_ITEM" ↔
   Exists (λ entry, Text.includes lowerPrompt entry.1 = true) furnitureTypes) ∧
  (getOpt parsed "command" = VString "ADD_ITEM" →
   ∃ before keyword itemType after,
     furnitureTypes = before ++ (keyword, itemType) :: after ∧
     Text.includes lowerPrompt keyword = true ∧
     Forall (λ entry, Text.includes lowerPrompt entry.1 = false) before ∧
     getOpt (getOpt parsed "params") "itemType" = VString itemType ∧
     getOpt (getOpt parsed "params") "position" =
       match Text.coordMatch lowerPrompt with
       | Some (x, y) =>
           VObject {[ "x" := VNumber (parseInt x); "y" := VNumber (parseInt y) ]}
       | None => VNull
       end).
Proof.
  intros lowerPrompt parsed. subst parsed. unfold fallbackParsing. fold lowerPrompt.
  destruct (find (λ entry, Text.includes lowerPrompt entry.1) furnitureTypes)
    as [[keyword itemType]|] eqn:Hfind.
  - destruct (find_first _ _ _ Hfind) as (before & after & Htable & Hin & Hbefore).
    split.
    + split; [|reflexivity]. intros _. rewrite Htable.
      apply Exists_app. right. by constructor.
    + intros _. exists before, keyword, itemType, after.
      split; [done|]. split; [done|]. split; [done|]. split; reflexivity.
  - assert (Hnone : ¬ Exists (λ entry, Text.includes lowerPrompt entry.1 = true)
                       furnitureTypes).
    { rewrite Exists_exists. intros ([k t] & Hin & Hk).
      apply list_elem_of_In in Hin.
      by rewrite (find_none _ _ Hfind _ Hin) in Hk. }
    assert (Hcommand : getOpt
        (if Text.includes lowerPrompt "wall" || Text.includes lowerPrompt "draw"
         then VObject {[ "command" := VString "ADD_WALL";
                         "params" := VObject ∅;
                         "reasoning" := VString "[Fallback] Detected request to add wall" ]}
         else if Text.includes lowerPrompt "3d"
                 || Text.includes lowerPrompt "three dimensional"
         then VObject {[ "command" := VString "MODE_3D";
                         "params" := VObject ∅;
                         "reasoning" := VString "[Fallback] Switching to 3D view" ]}
         else if Text.includes lowerPrompt "2d"
         then VObject {[ "command" := VString "MODE_2D";
                         "params" := VObject ∅;
                         "reasoning" := VString "[Fallback] Switching to 2D view" ]}
         else if Text.includes lowerPrompt "load" || Text.includes lowerPrompt "open"
         then VObject {[ "command" := VString "CLARIFY";
                         "question" := VString "Which plan would you like to load? Please provide the plan ID.";
                         "reasoning" := VString "[Fallback] Need plan ID to load" ]}
         else VObject {[ "command" := VString "CLARIFY";
                         "question" := VString "I'm not sure what you want to do. Could you please rephrase? You can ask me to add furniture, draw walls, or switch views.";
                         "reasoning" := VString "[Fallback] Unable to parse the request" ]})
        "command" ≠ VString "ADD_ITEM").
    { repeat match goal with
      | |- context [if ?b then _ else _] => destruct b; [discriminate|]
      end. discriminate. }
    split; [split; [done|]|done]. intros Hex. by destruct Hnone.
Qed.

Lemma fallbackParsing_furniture_first_witness :
  getOpt (getOpt (fallbackParsing Instances.decimal
                    "Draw a CHAIR next to the couch at 10, 20") "params") "itemType"
    = VString "sofa" ∧
  getOpt (getOpt (fallbackParsing Instances.decimal
                    "Draw a CHAIR next to the couch at 10, 20") "params") "position"
    = VObject {[ "x" := VNumber 10; "y" := VNumber 20 ]}.
Proof.
  destruct (fallbackParsing_furniture_first Instances.decimal
              "Draw a CHAIR next to the couch at 10, 20") as [_ Hitem].
  destruct Hitem as (before & keyword & itemType & after & Htable & Hin & Hbefore
                     & Htype & Hposition); [reflexivity|].
  split; [reflexivity|]. rewrite Hposition. reflexivity.
Defined.

(** ** The coordinate pattern of the fallback *)

Section Coordinates.

#[local] Arguments String.append : simpl nomatch.

Lemma spanDigits_spec (s : string) :
  s = (Text.spanDigits s).1 +:+ (Text.spanDigits s).2 ∧
  allChars Text.isDigit (Text.spanDigits s).1 = true ∧
  match (Text.spanDigits s).2 with
  | String c _ => Text.isDigit c = false
  | EmptyString => True
  end.
Proof.
  induction s as [|c s (IHeq & IHall & IHnext)]; [done|].
  simpl. destruct (Text.isDigit c) eqn:Hc.
  - destruct (Text.spanDigits s) as [digits after]. simpl in *.
    rewrite Hc. split; [by f_equal|]. by split.
  - simpl. by rewrite Hc.
Qed.

Lemma skipSpaces_spec (s : string) :
  ∃ spaces, s = spaces +:+ Text.skipSpaces s ∧ allChars Text.isSpace spaces = true.
Proof.
  induction s as [|c s (spaces & IHeq & IHall)]; [by exists ""|].
  simpl. destruct (Text.isSpace c) eqn:Hc.
  - exists (String c spaces). simpl. split; [by f_equal|by rewrite Hc].
  - by exists "".
Qed.

Lemma append_assoc (a b c : string) : (a +:+ b) +:+ c = a +:+ b +:+ c.
Proof. induction a as [|x a IH]; simpl; [done|by f_equal]. Qed.

Lemma coordAt_sound (s x y : string) :
  Text.coordAt s = Some (x, y) →
  x ≠ "" ∧ y ≠ "" ∧
  allChars Text.isDigit x = true ∧ allChars Text.isDigit y = true ∧
  ∃ spaces1 spaces2 after,
    s = x +:+ spaces1 +:+ "," +:+ spaces2 +:+ y +:+ after ∧
    allChars Text.isSpace spaces1 = true ∧ allChars Text.isSpace spaces2 = true ∧
    match after with
    | String c _ => Text.isDigit c = false
    | EmptyString => True
    end.
Proof.
  unfold Text.coordAt.
  destruct (spanDigits_spec s) as (Hs & Hx & _).
  destruct (Text.spanDigits s) as [x0 afterX]. simpl in *.
  destruct (String.eqb_spec x0 "") as [|Hx0]; [done|].
  destruct (skipSpaces_spec afterX) as (spaces1 & HafterX & Hspaces1).
  destruct (Text.skipSpaces afterX) as [|c rest]; [done|].
  destruct (Ascii.eqb_spec c (Ascii.ascii_of_nat 44)) as [->|]; [|done].
  destruct (skipSpaces_spec rest) as (spaces2 & Hrest & Hspaces2).
  destruct (spanDigits_spec (Text.skipSpaces rest)) as (Hy & Hydigits & Hnext).
  destruct (Text.spanDigits (Text.skipSpaces rest)) as [y0 after]. simpl in *.
  destruct (String.eqb_spec y0 "") as [|Hy0]; [done|].
  intros [= <- <-]. repeat split; try done.
  exists spaces1, spaces2, after. repeat split; try done.
  rewrite Hs, HafterX. do 2 f_equal.
  change ("," +:+ spaces2 +:+ y0 +:+ after)
    with (String (Ascii.ascii_of_nat 44) (spaces2 +:+ y0 +:+ after)).
  f_equal. by rewrite Hrest, Hy at 1.
Qed.

(** X14 — A position is never invented: when the pattern matches, its two
    groups are non-empty runs of digits that stand in the text in that
    order, separated by a comma with nothing but white space around it, and
    the second run is not cut short. *)
Theorem coordMatch_sound (s x y : string) :
  Text.coordMatch s = Some (x, y) →
  x ≠ "" ∧ y ≠ "" ∧
  allChars Text.isDigit x = true ∧ allChars Text.isDigit y = true ∧
  ∃ before spaces1 spaces2 after,
    s = before +:+ x +:+ spaces1 +:+ "," +:+ spaces2 +:+ y +:+ after ∧
    allChars Text.isSpace spaces1 = true ∧ allChars Text.isSpace spaces2 = true ∧
    match after with
    | String c _ => Text.isDigit c = false
    | EmptyString => True
    end.
Proof.
  induction s as [|c s IH]; cbn [Text.coordMatch].
  - done.
  - destruct (Text.coordAt (String c s)) as [groups|] eqn:Hat.
    + intros [= ->]. destruct (coordAt_sound _ _ _ Hat)
        as (? & ? & ? & ? & spaces1 & spaces2 & after & ? & ? & ? & ?).
      repeat split; try done. by exists "", spaces1, spaces2, after.
    + intros Hrest. destruct (IH Hrest)
        as (? & ? & ? & ? & before & spaces1 & spaces2 & after & -> & ? & ? & ?).
      repeat split; try done. by exists (String c before), spaces1, spaces2, after.
Qed.

End Coordinates.

Lemma coordMatch_sound_witness :
  Text.coordMatch "a table at 12 ,  345 please" = Some ("12", "345") ∧
  ∃ before spaces1 spaces2 after,
    "a table at 12 ,  345 please"
      = before +:+ "12" +:+ spaces1 +:+ "," +:+ spaces2 +:+ "345" +:+ after.
Proof.
  split; [reflexivity|].
  destruct (coordMatch_sound "a table at 12 ,  345 please" "12" "345" eq_refl)
    as (_ & _ & _ & _ & before & spaces1 & spaces2 & after & Heq & _).
  by exists before, spaces1, spaces2, after.
Defined.

(** ** parsePromptWithAI *)

Lemma budget_positive : 0 < 80000.
Proof. apply Nat.ltb_lt. vm_compute. reflexivity. Qed.

Section Unusable.

Context (AI : Backend) (schema : ZodSchema) (jsonSchema : Value).
Hypothesis Hjs : toJsonSchema schema = Returns jsonSchema.
Hypothesis Hunusable : usableWireSchema (stripMeta jsonSchema) = false.

Lemma attemptCalls_unusable (modelName textPayload : string) :
  attemptCalls modelName textPayload schema = [].
Proof. unfold attemptCalls. by rewrite Hjs, Hunusable. Qed.

Lemma chunkAndMerge_unusable (maxSmallContextChars : nat) (modelName fullText : string)
    (h : History) :
  0 < maxSmallContextChars → fullText ≠ "" →
  ∃ r, chunkAndMerge AI maxSmallContextChars modelName fullText schema h
         = Some (Returns r, h) ∧ success r = false.
Proof.
  intros Hpos Hne.
  destruct (splitLoop_spec fullText maxSmallContextChars Hpos (String.length fullText) 0 [])
    as (textChunks & Hsplit & Hlen & _); [lia|].
  destruct textChunks as [|chunk rest].
  { exfalso. rewrite Nat.sub_0_r in Hlen. simpl in Hlen.
    assert (0 < String.length fullText) by (destruct fullText; [done|simpl; lia]).
    symmetry in Hlen. apply Nat.div_small_iff in Hlen; lia. }
  destruct (attempts_cons AI modelName schema chunk rest h) as (r & Hexec & _ & Hatt).
  rewrite (executeModel_unusable AI modelName chunk schema true h _ Hjs Hunusable) in Hexec.
  injection Hexec as Hr _.
  unfold chunkAndMerge. unfold mbind at 1, M_bind. unfold liftLoop, splitText.
  rewrite Hsplit. unfold mbind at 1, M_bind.
  rewrite (chunkLoop_abort AI modelName schema (length (chunk :: rest)) (chunk :: rest)
             0 _ h 0 r).
  - unfold chunkCalls. simpl. rewrite attemptCalls_unusable, !app_nil_r.
    eexists. split; reflexivity.
  - by rewrite Hatt.
  - by rewrite <- Hr.
  - intros j r' Hj. lia.
Qed.

Lemma analyzeText_unusable (maxSmallContextChars : nat)
    (Hermes2Pro Llama3_3 Llama4Scout MistralSmall3_1 : string)
    (textPayload : string) (h : History) :
  0 < maxSmallContextChars → textPayload ≠ "" →
  ∃ r, analyzeText AI maxSmallContextChars Hermes2Pro Llama3_3 Llama4Scout MistralSmall3_1
         schema textPayload h = Some (Returns r, h) ∧ success r = false.
Proof.
  intros Hpos Hne. unfold analyzeText.
  destruct (String.eqb_spec textPayload ""); [done|].
  destruct (decide (maxSmallContextChars < String.length textPayload)).
  - unfold mbind at 1, M_bind.
    rewrite (executeModel_unusable AI _ textPayload schema false h _ Hjs Hunusable).
    cbn [success]. unfold mbind at 1, M_bind.
    rewrite (executeModel_unusable AI _ textPayload schema false h _ Hjs Hunusable).
    cbn [success]. by apply chunkAndMerge_unusable.
  - do 4 (unfold mbind at 1, M_bind;
          rewrite (executeModel_unusable AI _ textPayload schema false h _ Hjs Hunusable);
          cbn [success]).
    eexists. split; reflexivity.
Qed.

End Unusable.

Section ParsePrompt.

Context (parseInt : string → Z) (JSON_stringify_indented : Value → string).
Context (Hermes2Pro Llama3_3 Llama4Scout MistralSmall3_1 : string).
Context (aiResponseSchema : ZodSchema).

Lemma fullTextPayload_nonempty (prompt : string) (currentState : Value) :
  fullTextPayload JSON_stringify_indented prompt currentState ≠ "".
Proof.
  assert (∃ c s, fullTextPayload JSON_stringify_indented prompt currentState = String c s)
    as (c & s & ->) by (eexists _, _; reflexivity).
  discriminate.
Qed.

Lemma parsePromptWithAI_cases (AI : Backend) (prompt : string) (currentState : Value)
    (h : History) (r : ExtractionResult) (h' : History) :
  analyzeText AI 80000 Hermes2Pro Llama3_3 Llama4Scout MistralSmall3_1 aiResponseSchema
    (fullTextPayload JSON_stringify_indented prompt currentState) h
    = Some (Returns r, h') →
  parsePromptWithAI parseInt JSON_stringify_indented Hermes2Pro Llama3_3 Llama4Scout
      MistralSmall3_1 aiResponseSchema (Some AI) prompt currentState h =
    Some (Returns (if success r && truthy (structuredResult r)
                   then structuredResult r
                   else fallbackParsing parseInt prompt), h').
Proof.
  intros Hanalyze. unfold parsePromptWithAI, tryCatch.
  unfold mbind, M_bind. rewrite Hanalyze.
  by destruct (success r && truthy (structuredResult r)).
Qed.

End ParsePrompt.


(** X16 — With a schema whose wire schema fails the guard, as a Zod union's
    [anyOf] does, the AI is never consulted: parsePromptWithAI makes no
    backend call and returns exactly what the rule-based fallback makes of
    the prompt. *)
Theorem parsePromptWithAI_unusable_schema (parseInt : string → Z)
    (JSON_stringify_indented : Value → string)
    (Hermes2Pro Llama3_3 Llama4Scout MistralSmall3_1 : string)
    (aiResponseSchema : ZodSchema) (jsonSchema : Value) (AI : Backend)
    (prompt : string) (currentState : Value) (h : History) :
  toJsonSchema aiResponseSchema = Returns jsonSchema →
  usableWireSchema (stripMeta jsonSchema) = false →
  parsePromptWithAI parseInt JSON_stringify_indented Hermes2Pro Llama3_3 Llama4Scout
      MistralSmall3_1 aiResponseSchema (Some AI) prompt currentState h
    = Some (Returns (fallbackParsing parseInt prompt), h).
Proof.
  intros Hjs Hunusable.
  destruct (analyzeText_unusable AI aiResponseSchema jsonSchema Hjs Hunusable 80000
              Hermes2Pro Llama3_3 Llama4Scout MistralSmall3_1
              (fullTextPayload JSON_stringify_indented prompt currentState) h
              budget_positive (fullTextPayload_nonempty _ _ _))
    as (r & Hanalyze & Hfailed).
  rewrite (parsePromptWithAI_cases parseInt JSON_stringify_indented Hermes2Pro Llama3_3
             Llama4Scout MistralSmall3_1 aiResponseSchema AI prompt currentState h r h
             Hanalyze).
  by rewrite Hfailed.
Qed.

Lemma parsePromptWithAI_unusable_schema_witness :
  parsePromptWithAI Instances.decimal toStr "hermes-2-pro" "llama-3.3" "llama-4-scout"
      "mistral-small-3.1" Examples.aiResponseSchema
      (Some (Examples.onlyModel "hermes-2-pro"
               (VObject {[ "command" := VString "MODE_3D"; "reasoning" := VString "view" ]})))
      "Add a sofa at 3,4" VNull []
    = Some (Returns (fallbackParsing Instances.decimal "Add a sofa at 3,4"), []).
Proof.
  eapply parsePromptWithAI_unusable_schema; reflexivity.
Defined.

(** ** verifyAuth *)

Lemma mismatchLoop_zero (tokenHash : list Z) : ∀ keyHash mismatch,
  length tokenHash = length keyHash →
  mismatchLoop tokenHash keyHash mismatch = 0%Z ↔ mismatch = 0%Z ∧ tokenHash = keyHash.
Proof.
  induction tokenHash as [|t tokenRest IH]; intros [|k keyRest] mismatch Hlen;
    simpl in *; try discriminate.
  - split; [by intros ->|by intros [-> _]].
  - rewrite IH by lia. rewrite Z.lor_eq_0_iff. split.
    + intros [[-> Hxor] ->]. apply Z.lxor_eq in Hxor as ->. done.
    + intros [-> [= -> ->]]. by rewrite Z.lxor_nilpotent.
Qed.

Lemma prefix_split (p s : string) :
  String.prefix p s = true ↔ ∃ t, s = p +:+ t.
Proof.
  revert s. induction p as [|c p IH]; intros s.
  - simpl. destruct s; split; eauto.
  - destruct s as [|d s]; simpl.
    + split; [done|]. by intros [t Ht].
    + destruct (Ascii.ascii_dec c d) as [->|Hne].
      * rewrite IH. split; intros [t Ht]; exists t.
        -- by rewrite Ht.
        -- by injection Ht.
      * split; [done|]. intros [t [= ? ?]]. done.
Qed.

Lemma substring_after_prefix (p t : string) :
  String.substring (String.length p) (String.length (p +:+ t) - String.length p) (p +:+ t)
    = t.
Proof.
  induction p as [|c p IH].
  - change ("" +:+ t) with t. simpl. rewrite Nat.sub_0_r. apply substring_all.
  - change (String c p +:+ t) with (String c (p +:+ t)). simpl. apply IH.
Qed.

(** X17 — verifyAuth lets a request through in exactly two cases: no API key is
    configured (undefined or empty), or the Authorization header is
    ["Bearer "] followed by a token whose digest is, byte for byte, the
    digest of the configured key.  A missing header, another scheme, a
    digest that throws or digests that differ in any byte are refused. *)
Theorem verifyAuth_accepts_iff (digest : string → Result (list Z))
    (apiKey authHeader : option string) :
  verifyAuth digest apiKey authHeader = true ↔
  apiKey = None ∨ apiKey = Some "" ∨
  ∃ key token hash,
    apiKey = Some key ∧ authHeader = Some ("Bearer " +:+ token) ∧
    digest token = Returns hash ∧ digest key = Returns hash.
Proof.
  unfold verifyAuth. destruct apiKey as [key|]; [|naive_solver].
  destruct (String.eqb_spec key "") as [->|Hkey]; [naive_solver|].
  destruct authHeader as [header|].
  2:{ split; [done|]. intros [?|[?|(? & ? & ? & ? & ? & _)]]; congruence. }
  destruct (String.eqb_spec header "") as [->|Hheader].
  { split; [done|]. by intros [?|[[= ?]|(? & t & ? & ? & Hh & _)]]. }
  destruct (String.prefix "Bearer " header) eqn:Hprefix; cbn [negb orb].
  2:{ split; [done|]. intros [?|[[= ?]|(? & t & ? & ? & [= ->] & _)]]; try done.
      assert (String.prefix "Bearer " ("Bearer " +:+ t) = true)
        by (apply prefix_split; eauto).
      congruence. }
  apply prefix_split in Hprefix as [token ->].
  pose proof (substring_after_prefix "Bearer " token) as Htoken.
  change (String.length "Bearer ") with 7 in Htoken. rewrite Htoken. clear Htoken.
  split.
  - intros Hok. right. right.
    destruct (digest token) as [tokenHash|] eqn:Htoken; [|done].
    destruct (digest key) as [keyHash|] eqn:Hkeyhash; [|done].
    destruct (Nat.eqb_spec (length tokenHash) (length keyHash)) as [Hlen|]; [|done].
    cbn [negb] in Hok. apply Z.eqb_eq in Hok.
    apply mismatchLoop_zero in Hok as [_ ->]; [|done].
    by exists key, token, keyHash.
  - intros [?|[[= ?]|(key' & token' & hash & [= <-] & [= Htoken] & Hth & Hkh)]]; try done.
    change (token = token') in Htoken. subst token'.
    rewrite Hth, Hkh, Nat.eqb_refl. cbn [negb].
    apply Z.eqb_eq. by apply mismatchLoop_zero.
Qed.

Lemma verifyAuth_accepts_iff_witness :
  verifyAuth Instances.plainDigest (Some "s3cret") (Some "Bearer s3cret") = true ∧
  verifyAuth Instances.plainDigest (Some "s3cret") (Some "Bearer s3cres") = false ∧
  verifyAuth Instances.plainDigest (Some "s3cret") None = false.
Proof.
  split; [|split; reflexivity].
  apply verifyAuth_accepts_iff. right. right.
  exists "s3cret", "s3cret", (Instances.codes "s3cret"). by repeat split.
Defined.

(** ** pollBatchAnalysisStatus: the ways it throws *)




(** ** executeModel: what goes to the backend *)

Lemma usableWireSchema_fields (jsonSchema : Value) :
  usableWireSchema (stripMeta jsonSchema) = true →
  ∃ fields, stripMeta jsonSchema = VObject fields ∧
            fields !! "$schema" = None ∧
            is_Some (fields !! "properties") ∧
            fields !! "type" = Some (VString "object").
Proof.
  destruct jsonSchema as [| | | | | |fields]; try discriminate.
  simpl. intros [Hproperties Htype]%andb_prop.
  exists (delete "$schema" fields). split; [done|].
  split; [apply lookup_delete_eq|].
  split; [by apply bool_decide_eq_true in Hproperties|].
  destruct (delete "$schema" fields !! "type") as [[| | | |t| |]|]; try discriminate.
  by apply String.eqb_eq in Htype as ->.
Qed.

(** X19 — One attempt of executeModel sends at most one request, to the model it
    was given, and a successful result always comes from a request that was
    sent.  The [response_format] of a request is of type ["json_schema"],
    and the schema in it is an object with a [properties] key, with [type]
    ["object"] and without the [$schema] key. *)
Theorem executeModel_request (AI : Backend) (modelName textPayload : string)
    (schema : ZodSchema) (isChunk : bool) (h : History) :
  ∃ r calls,
    executeModel AI modelName textPayload schema isChunk h
      = Some (Returns r, h ++ calls) ∧
    length calls ≤ 1 ∧
    (success r = true → length calls = 1) ∧
    Forall (λ call : Call,
      call.1 = modelName ∧
      getOpt (getOpt call.2 "response_format") "type" = VString "json_schema" ∧
      ∃ fields,
        getOpt (getOpt call.2 "response_format") "json_schema" = VObject fields ∧
        fields !! "$schema" = None ∧
        is_Some (fields !! "properties") ∧
        fields !! "type" = Some (VString "object")) calls.
Proof.
  destruct (executeModel_returns AI modelName textPayload schema isChunk h)
    as (r & Hexec & _).
  exists r, (attemptCalls modelName textPayload schema). split; [done|].
  split; [apply attemptCalls_bound|]. split.
  - intros Hsuccess.
    destruct (executeModel_at AI modelName textPayload schema isChunk h r) as (_ & _ & Hcalled).
    { by rewrite Hexec. }
    apply (f_equal length) in Hcalled; [|done].
    unfold invoked in Hcalled. by rewrite length_fmap in Hcalled.
  - unfold attemptCalls. destruct (toJsonSchema schema) as [jsonSchema|e]; [|constructor].
    destruct (usableWireSchema (stripMeta jsonSchema)) eqn:Husable; [|constructor].
    destruct (usableWireSchema_fields jsonSchema Husable)
      as (fields & -> & Hmeta & Hproperties & Htype).
    repeat constructor. by exists fields.
Qed.
